(** * spiro/hostapd.py: access-point set-up, embedded and verified

    The module shells out to the package manager and the service manager,
    writes three configuration files and derives the credentials of the
    access point from a time-based UUID.  The embedding keeps that shape:

    - Python's [str] is [string]; the slices, [str.format], ['%032x' % n],
      [str(uuid.UUID)] and [textwrap.dedent] the module relies on are
      functions on [string];
    - the outside world (package manager, service manager, UUID generator)
      is an oracle answering from the history of the run, so that every
      statement holds for every behaviour of these collaborators;
    - effects are threaded through a state monad over a [World]: the
      history of events and the contents of the files written so far.

    Every [subprocess.run] and every file operation is taken to complete:
    an exception escaping the module (for instance a failing [open]) is
    outside this model. *)

From Stdlib Require Import ZArith NArith Ascii DecimalString Lia.
From stdpp Require Import gmap strings.

(** ** Python strings *)

Module PyStr.

Definition nl : ascii := "010"%char.
Definition tab : ascii := "009"%char.
Definition space : ascii := " "%char.

Fixpoint drop (n : nat) (s : string) : string :=
  match n, s with
  | O, _ => s
  | S _, EmptyString => EmptyString
  | S n', String _ s' => drop n' s'
  end.

Fixpoint take (n : nat) (s : string) : string :=
  match n, s with
  | O, _ => EmptyString
  | S _, EmptyString => EmptyString
  | S n', String c s' => String c (take n' s')
  end.

(** [s[lo:hi]] for literal bounds [0 <= lo], [0 <= hi]: both ends are
    clamped to the length of [s], never an error. *)
Definition slice (lo hi : nat) (s : string) : string := take (hi - lo) (drop lo s).

(** [s[lo:]] *)
Definition slice_from (lo : nat) (s : string) : string := drop lo s.

(** [s[:hi]] *)
Definition slice_to (hi : nat) (s : string) : string := take hi s.

Fixpoint all_chars (P : ascii -> bool) (s : string) : bool :=
  match s with
  | EmptyString => true
  | String c s' => if P c then all_chars P s' else false
  end.

Fixpoint replicate_char (n : nat) (c : ascii) : string :=
  match n with
  | O => EmptyString
  | S n' => String c (replicate_char n' c)
  end.

(** [str(i)] for an [int]. *)
Definition str_of_int (z : Z) : string := NilZero.string_of_int (Z.to_int z).

(** *** ['%x' % n] and ['%032x' % n] *)

Definition hex_alphabet : string := "0123456789abcdef".

Definition hex_digit (d : N) : ascii :=
  match String.get (N.to_nat d) hex_alphabet with
  | Some c => c
  | None => "0"%char
  end.

Fixpoint hex_of_N_aux (fuel : nat) (n : N) (acc : string) : string :=
  match fuel with
  | O => acc
  | S fuel' =>
      let acc' := String (hex_digit (n mod 16)) acc in
      if (n / 16 =? 0)%N then acc' else hex_of_N_aux fuel' (n / 16) acc'
  end.

(** ['%x' % n]: the digits of [n] in base 16, lower case, no leading zero
    (a single ["0"] for zero).  [n] has at most [log2 n + 1] digits. *)
Definition hex_of_N (n : N) : string :=
  hex_of_N_aux (S (N.to_nat (N.log2 n))) n EmptyString.

(** ['%0<w>x' % n]: zero-padded on the left to a minimum width. *)
Definition hex_padded (w : nat) (n : N) : string :=
  let digits := hex_of_N n in
  replicate_char (w - String.length digits) "0"%char +:+ digits.

Definition is_hex_char (c : ascii) : bool :=
  let k := nat_of_ascii c in
  ((48 <=? k) && (k <=? 57)) || ((97 <=? k) && (k <=? 102)).

(** Reading a lower-case hexadecimal numeral back (used to check
    [hex_of_N] against the number it prints). *)
Definition hex_value (c : ascii) : N :=
  let k := N_of_ascii c in
  if (k <? 58)%N then (k - 48)%N else (k - 87)%N.

Fixpoint N_of_hex_aux (s : string) (acc : N) : N :=
  match s with
  | EmptyString => acc
  | String c s' => N_of_hex_aux s' (16 * acc + hex_value c)%N
  end.

Definition N_of_hex (s : string) : N := N_of_hex_aux s 0%N.

(** *** [str.format] with positional fields

    The templates of the module only use the replacement fields [{0}] and
    [{1}], without conversion or format specification; every other
    character is copied. *)

Definition field_index (c : ascii) : option nat :=
  let k := nat_of_ascii c in
  if (48 <=? k) && (k <=? 57) then Some (k - 48) else None.

Fixpoint format (tmpl : string) (args : list string) : string :=
  match tmpl with
  | EmptyString => EmptyString
  | String c rest =>
      match rest with
      | String d (String e rest') =>
          if Ascii.eqb c "{" && Ascii.eqb e "}" then
            match field_index d with
            | Some i => nth i args EmptyString +:+ format rest' args
            | None => String c (format rest args)
            end
          else String c (format rest args)
      | _ => String c (format rest args)
      end
  end.

(** *** [textwrap.dedent]

    The standard library's implementation works with three regular
    expressions over the whole text (blank = space or tab); line by line
    they read:
    - [_whitespace_only_re], replaced by the empty string: a line made of
      blanks only becomes empty;
    - [_leading_whitespace_re] with [findall]: the leading blanks of every
      line that has a character other than a blank;
    - the margin is the longest common prefix of these indents, computed
      by the three-way loop below;
    - if the margin is not empty, a multi-line [re.sub] strips it from the
      lines that start with it. *)

Definition is_blank (c : ascii) : bool := Ascii.eqb c space || Ascii.eqb c tab.

(** [text.split('\n')] *)
Fixpoint split_lines (s : string) : list string :=
  match s with
  | EmptyString => [EmptyString]
  | String c s' =>
      if Ascii.eqb c nl then EmptyString :: split_lines s'
      else match split_lines s' with
           | [] => [String c EmptyString]
           | l :: ls => String c l :: ls
           end
  end.

(** ['\n'.join(lines)] *)
Fixpoint join_lines (ls : list string) : string :=
  match ls with
  | [] => EmptyString
  | [l] => l
  | l :: ls' => l +:+ String nl (join_lines ls')
  end.

Definition all_blank (l : string) : bool := all_chars is_blank l.

Fixpoint leading_blanks (l : string) : string :=
  match l with
  | EmptyString => EmptyString
  | String c l' => if is_blank c then String c (leading_blanks l') else EmptyString
  end.

Definition blank_to_empty (l : string) : string :=
  if all_blank l then EmptyString else l.

Fixpoint indents (ls : list string) : list string :=
  match ls with
  | [] => []
  | l :: ls' => if all_blank l then indents ls' else leading_blanks l :: indents ls'
  end.

(** [margin[:i]] for the first [i] where [margin] and [indent] differ. *)
Fixpoint cut_at_mismatch (margin indent : string) : string :=
  match margin, indent with
  | String x m', String y i' =>
      if Ascii.eqb x y then String x (cut_at_mismatch m' i') else EmptyString
  | _, _ => margin
  end.

Definition margin_step (margin : option string) (indent : string) : option string :=
  match margin with
  | None => Some indent
  | Some m =>
      if String.prefix m indent then Some m
      else if String.prefix indent m then Some indent
      else Some (cut_at_mismatch m indent)
  end.

Definition strip_margin (margin l : string) : string :=
  if String.prefix margin l then drop (String.length margin) l else l.

Definition dedent (text : string) : string :=
  let ls := map blank_to_empty (split_lines text) in
  match fold_left margin_step (indents ls) None with
  | Some (String _ _ as margin) => join_lines (map (strip_margin margin) ls)
  | _ => join_lines ls
  end.

End PyStr.

(** ** [uuid.UUID] *)

Module Uuid.

(** A UUID is its 128-bit integer; the constructor of [uuid.UUID] rejects
    everything outside [0 <= int < 1 << 128]. *)
Record UUID : Type := mkUUID {
  int : N;
  int_range : (int <? 2 ^ 128)%N = true
}.

(** [UUID.hex]: ['%032x' % self.int] *)
Definition hex (u : UUID) : string := PyStr.hex_padded 32 (int u).

(** [UUID.__str__]: the hexadecimal digits grouped 8-4-4-4-12. *)
Definition str (u : UUID) : string :=
  let x := hex u in
  PyStr.slice_to 8 x +:+ "-" +:+ PyStr.slice 8 12 x +:+ "-" +:+
  PyStr.slice 12 16 x +:+ "-" +:+ PyStr.slice 16 20 x +:+ "-" +:+
  PyStr.slice_from 20 x.

(** The canonical textual form: 36 characters, hyphens at offsets 8, 13,
    18 and 23, lower-case hexadecimal digits everywhere else. *)
Fixpoint canonical_from (i : nat) (s : string) : bool :=
  match s with
  | EmptyString => true
  | String c s' =>
      (if (i =? 8) || (i =? 13) || (i =? 18) || (i =? 23)
       then Ascii.eqb c "-" else PyStr.is_hex_char c)
      && canonical_from (S i) s'
  end.

Definition canonical (s : string) : bool :=
  (String.length s =? 36) && canonical_from 0 s.

End Uuid.

(** ** The literals of the module *)

(** The literal of [config_hostapd], lines 43-59 of the source: the
    backslash after the opening quotes drops the first line break, the last
    line holds the blanks before the closing quotes. *)
Definition hostapd_template : string :=
"                                # auto-generated by spiro software
                                interface=wlan0
                                driver=nl80211
                                ssid={0}
                                hw_mode=g
                                channel=7
                                wmm_enabled=0
                                macaddr_acl=0
                                auth_algs=1
                                ignore_broadcast_ssid=0
                                wpa=2
                                wpa_passphrase={1}
                                wpa_key_mgmt=WPA-PSK
                                wpa_pairwise=TKIP
                                rsn_pairwise=CCMP
                                ".

(** The literal of [config_dnsmasq]. *)
Definition dnsmasq_template : string :=
"                                # auto-generated by spiro software
                                interface=wlan0
                                dhcp-range=192.168.138.10,192.168.138.254,12h
                                address=/#/192.168.138.1
                                no-resolv
                                no-poll
                                no-hosts
                                domain=spiro.local
                                ".

(** The first literal of [config_dhcpcd]: the baseline block. *)
Definition dhcpcd_template : string :=
"                                # auto-generated by spiro software
                                hostname
                                clientid
                                persistent
                                option rapid_commit
                                option domain_name_servers, domain_name, domain_search, host_name
                                option classless_static_routes
                                option interface_mtu
                                option ntp_servers
                                require dhcp_server_identifier
                                slaac private
                                ".

(** The second literal of [config_dhcpcd]: the static address of wlan0. *)
Definition dhcpcd_static_template : string :=
"                                    interface wlan0
                                    static ip_address=192.168.138.1/24
                                    nohook wpa_supplicant
                                    ".

(** ** The world the module acts on *)

(** How [subprocess.run] is asked to capture the output of the child. *)
Inductive Capture : Type :=
| StdoutPipe          (* stdout=PIPE *)
| StderrToStdoutPipe  (* stderr=STDOUT, stdout=PIPE: one combined stream *)
| CaptureOutput.      (* capture_output=True *)

(** [subprocess.CompletedProcess]: the exit status (negative when the
    child was killed by a signal) and the bytes read from the stdout pipe,
    which under [StderrToStdoutPipe] are stdout and stderr combined. *)
Record CompletedProcess : Type := {
  returncode : Z;
  stdout : string
}.

Inductive Event : Type :=
| ERun (argv : list string) (capture : Capture) (p : CompletedProcess)
| EUuid1 (u : Uuid.UUID)
| EOpen (path : string)
| EWrite (path : string) (data : string)
| ELog (msg : string)
| EDebug (msg : string).

(** The history of the run, oldest event first, and the contents of the
    files this module has written. *)
Record World : Type := {
  trace : list Event;
  files : gmap string string
}.

Definition emit (e : Event) (w : World) : World :=
  {| trace := trace w ++ [e]; files := files w |}.

(** A computation that may act on the world. *)
Definition M (A : Type) : Type := World -> A * World.

Definition ret {A} (a : A) : M A := fun w => (a, w).

Definition bind {A B} (m : M A) (k : A -> M B) : M B :=
  fun w => let (a, w') := m w in k a w'.

Declare Scope world_scope.
Delimit Scope world_scope with world.
Bind Scope world_scope with M.
Notation "x <- m ;; k" := (bind m (fun x => k))
  (at level 20, m at level 99, k at level 200, only parsing) : world_scope.
Notation "m ;; k" := (bind m (fun _ => k))
  (at level 100, k at level 200, only parsing, right associativity) : world_scope.
Local Open Scope world_scope.

Definition result {A} (m : M A) (w : World) : A := fst (m w).
Definition after {A} (m : M A) (w : World) : World := snd (m w).

(** [open(path, "w")] truncates the file; [f.write(data)] appends to it.
    Both are taken to complete: [open] raising (a missing directory, no
    permission) ends the run without a value and is not modelled, so the
    statements below are about calls and runs that return. *)
Definition open_w (path : string) : M unit :=
  fun w => (tt, {| trace := trace w ++ [EOpen path];
                   files := <[path := EmptyString]> (files w) |}).

Definition write (path data : string) : M unit :=
  fun w => (tt, {| trace := trace w ++ [EWrite path data];
                   files := <[path := default EmptyString (files w !! path) +:+ data]> (files w) |}).

(** Modelled from the spec: [log] and [debug] come from [spiro.logger],
    which is not among the sources at hand; the spec describes a log sink
    receiving informational and debug-level text lines, so each call
    records its line in the history and does nothing else. *)
Definition log (msg : string) : M unit := fun w => (tt, emit (ELog msg) w).
Definition debug (msg : string) : M unit := fun w => (tt, emit (EDebug msg) w).

Section Hostapd.

(** The collaborators: what a command answers and which UUID is generated,
    given everything that happened before. *)
Variable exec : list Event -> list string -> Capture -> CompletedProcess.
Variable gen_uuid1 : list Event -> Uuid.UUID.

(** [subprocess.run(argv, ...)] *)
Definition run (argv : list string) (capture : Capture) : M CompletedProcess :=
  fun w => let p := exec (trace w) argv capture in (p, emit (ERun argv capture p) w).

(** [uuid.uuid1()] *)
Definition uuid1 : M Uuid.UUID :=
  fun w => let u := gen_uuid1 (trace w) in (u, emit (EUuid1 u) w).

Definition init : M unit :=
  p <- run ["systemctl"; "daemon-reload"] StderrToStdoutPipe ;;
  ret tt.

(** The [for r in reqs] loop of [install_reqs], with its early return. *)
Fixpoint install_reqs_loop (reqs : list string) : M (bool * option string) :=
  match reqs with
  | [] => ret (true, None)
  | r :: reqs' =>
      p <- run ["dpkg"; "-l"; r] StdoutPipe ;;
      if negb (returncode p =? 0)%Z then
        p <- run ["apt"; "install"; "-y"; r] StderrToStdoutPipe ;;
        if negb (returncode p =? 0)%Z then
          ret (false, Some (stdout p))
        else
          p <- run ["systemctl"; "stop"; r] StderrToStdoutPipe ;;
          install_reqs_loop reqs'
      else install_reqs_loop reqs'
  end.

Definition install_reqs : M (bool * option string) :=
  install_reqs_loop ["dnsmasq"; "hostapd"].

Definition config_hostapd : M (string * string) :=
  u0 <- uuid1 ;;
  let u := Uuid.str u0 in
  let id := "spiro-" +:+ PyStr.slice 30 36 u in
  let pwd := PyStr.slice 0 8 u in
  open_w "/etc/hostapd/hostapd.conf" ;;
  write "/etc/hostapd/hostapd.conf"
        (PyStr.dedent (PyStr.format hostapd_template [id; pwd])) ;;
  ret (id, pwd).

Definition config_dnsmasq : M unit :=
  open_w "/etc/dnsmasq.conf" ;;
  write "/etc/dnsmasq.conf" (PyStr.dedent dnsmasq_template).

Definition config_dhcpcd (enable : bool) : M unit :=
  open_w "/etc/dhcpcd.conf" ;;
  write "/etc/dhcpcd.conf" (PyStr.dedent dhcpcd_template) ;;
  if enable then
    write "/etc/dhcpcd.conf" (PyStr.dedent dhcpcd_static_template)
  else ret tt.

(** The [for s in services] loop of [restart_services], appending to
    [codes]. *)
Fixpoint restart_services_loop (services : list string) (codes : list Z) : M (list Z) :=
  match services with
  | [] => ret codes
  | s :: services' =>
      p <- run ["systemctl"; "restart"; s] StderrToStdoutPipe ;;
      debug (PyStr.format "Restarted service {0} with status code {1}."
                          [s; PyStr.str_of_int (returncode p)]) ;;
      restart_services_loop services' (codes ++ [returncode p])
  end.

Definition restart_services : M bool :=
  codes <- restart_services_loop ["dhcpcd"; "dnsmasq"; "hostapd"] [] ;;
  ret (forallb (fun c => (c =? 0)%Z) codes).

Fixpoint enable_services_loop (services : list string) : M unit :=
  match services with
  | [] => ret tt
  | s :: services' =>
      p <- run ["systemctl"; "unmask"; s] CaptureOutput ;;
      p <- run ["systemctl"; "enable"; s] CaptureOutput ;;
      enable_services_loop services'
  end.

Definition enable_services : M unit := enable_services_loop ["dnsmasq"; "hostapd"].

Fixpoint disable_services_loop (services : list string) : M unit :=
  match services with
  | [] => ret tt
  | s :: services' =>
      p <- run ["systemctl"; "stop"; s] CaptureOutput ;;
      p <- run ["systemctl"; "disable"; s] CaptureOutput ;;
      disable_services_loop services'
  end.

Definition disable_services : M unit := disable_services_loop ["dnsmasq"; "hostapd"].

Definition start_ap : M Z :=
  log "Setting up dependencies..." ;;
  init ;;
  install_reqs ;;
  log "Configuring system..." ;;
  config_dhcpcd true ;;
  config_dnsmasq ;;
  cred <- config_hostapd ;;
  let '(ssid, pwd) := cred in
  log "Starting services..." ;;
  enable_services ;;
  r <- restart_services ;;
  if negb r then
    log "Failed to restart services." ;;
    log "Setting up access point failed." ;;
    ret 1%Z
  else
    log "Access point configured and enabled. Below are the details for connecting to it:" ;;
    log (String PyStr.nl "SSID:     " +:+ ssid) ;;
    log ("Password: " +:+ pwd) ;;
    log (String PyStr.nl "Connect to the web interface using the address http://spiro.local") ;;
    ret 0%Z.

(** [stop_ap] has no [return]: its value is [None], here [tt]. *)
Definition stop_ap : M unit :=
  log "Disabling services..." ;;
  disable_services ;;
  log "Access point disabled.".

End Hostapd.

(** ** Vocabulary of the specification

    The definitions below are not part of the program: they name what the
    statements talk about (expected file contents, shapes of histories). *)

Definition not_nl (c : ascii) : bool := negb (Ascii.eqb c PyStr.nl).
Definition no_newline (s : string) : bool := PyStr.all_chars not_nl s.

(** The 32 blanks in front of every line of the literals. *)
Definition indent32 : string := PyStr.replicate_char 32 " "%char.

(** The first and the last [n] characters of a string. *)
Definition first_chars (n : nat) (s : string) : string := PyStr.take n s.
Definition last_chars (n : nat) (s : string) : string :=
  PyStr.drop (String.length s - n) s.

(** What the AP daemon's configuration is expected to be, line by line,
    for a given network name and passphrase. *)
Definition hostapd_conf_lines (ssid pwd : string) : list string :=
  [ "# auto-generated by spiro software";
    "interface=wlan0";
    "driver=nl80211";
    "ssid=" +:+ ssid;
    "hw_mode=g";
    "channel=7";
    "wmm_enabled=0";
    "macaddr_acl=0";
    "auth_algs=1";
    "ignore_broadcast_ssid=0";
    "wpa=2";
    "wpa_passphrase=" +:+ pwd;
    "wpa_key_mgmt=WPA-PSK";
    "wpa_pairwise=TKIP";
    "rsn_pairwise=CCMP";
    "" ].

Definition hostapd_conf (ssid pwd : string) : string :=
  PyStr.join_lines (hostapd_conf_lines ssid pwd).

Definition dnsmasq_conf : string :=
"# auto-generated by spiro software
interface=wlan0
dhcp-range=192.168.138.10,192.168.138.254,12h
address=/#/192.168.138.1
no-resolv
no-poll
no-hosts
domain=spiro.local
".

Definition dhcpcd_baseline : string :=
"# auto-generated by spiro software
hostname
clientid
persistent
option rapid_commit
option domain_name_servers, domain_name, domain_search, host_name
option classless_static_routes
option interface_mtu
option ntp_servers
require dhcp_server_identifier
slaac private
".

Definition dhcpcd_static_block : string :=
"interface wlan0
static ip_address=192.168.138.1/24
nohook wpa_supplicant
".

Definition hostapd_path : string := "/etc/hostapd/hostapd.conf".
Definition dnsmasq_path : string := "/etc/dnsmasq.conf".
Definition dhcpcd_path : string := "/etc/dhcpcd.conf".

(** Appending a list of events to the history, files untouched. *)
Definition emits (evs : list Event) (w : World) : World :=
  fold_left (fun w e => emit e w) evs w.

(** The events a computation adds to the history of [w]. *)
Definition new_events {A} (m : M A) (w : World) : list Event :=
  drop (length (trace w)) (trace (after m w)).

Definition is_log (e : Event) : bool :=
  match e with ELog _ => true | _ => false end.

Definition is_run (e : Event) : bool :=
  match e with ERun _ _ _ => true | _ => false end.

Definition is_uuid1 (e : Event) : bool :=
  match e with EUuid1 _ => true | _ => false end.

Definition is_file_event (e : Event) : bool :=
  match e with EOpen _ | EWrite _ _ => true | _ => false end.

(** How many events of a kind a history holds. *)
Definition count_events (f : Event -> bool) (evs : list Event) : nat :=
  length (List.filter f evs).

(** The log lines that end [start_ap], by the outcome [r] of
    [restart_services] and the credentials. *)
Definition final_logs (r : bool) (cred : string * string) : list Event :=
  if r then
    [ELog "Access point configured and enabled. Below are the details for connecting to it:";
     ELog (String PyStr.nl "SSID:     " +:+ fst cred);
     ELog ("Password: " +:+ snd cred);
     ELog (String PyStr.nl "Connect to the web interface using the address http://spiro.local")]
  else
    [ELog "Failed to restart services."; ELog "Setting up access point failed."].

(** The commands of the module, as events. *)
Definition query_event (r : string) (p : CompletedProcess) : Event :=
  ERun ["dpkg"; "-l"; r] StdoutPipe p.
Definition install_event (r : string) (p : CompletedProcess) : Event :=
  ERun ["apt"; "install"; "-y"; r] StderrToStdoutPipe p.
Definition stop_event (r : string) (p : CompletedProcess) : Event :=
  ERun ["systemctl"; "stop"; r] StderrToStdoutPipe p.
Definition restart_event (s : string) (p : CompletedProcess) : Event :=
  ERun ["systemctl"; "restart"; s] StderrToStdoutPipe p.
Definition restart_debug (s : string) (p : CompletedProcess) : Event :=
  EDebug ("Restarted service " +:+ s +:+ " with status code "
          +:+ PyStr.str_of_int (returncode p) +:+ ".").

(** What ensuring one package [r] may add to the history, and whether it
    ends the whole operation: the package is present; it is missing and
    gets installed, then its service is stopped; it is missing and the
    installation fails, which ends the operation with the output of the
    install command. *)
Inductive pkg_segment (r : string) : list Event -> option string -> Prop :=
| pkg_present q :
    returncode q = 0%Z ->
    pkg_segment r [query_event r q] None
| pkg_installed q i s :
    returncode q <> 0%Z -> returncode i = 0%Z ->
    pkg_segment r [query_event r q; install_event r i; stop_event r s] None
| pkg_install_failed q i :
    returncode q <> 0%Z -> returncode i <> 0%Z ->
    pkg_segment r [query_event r q; install_event r i] (Some (stdout i)).

(** Two collaborators used to run the module on concrete inputs: a system
    where every command succeeds, and one where no package is present and
    nothing can be installed or restarted. *)
Definition exec_ok : list Event -> list string -> Capture -> CompletedProcess :=
  fun _ _ _ => {| returncode := 0; stdout := "" |}.
Definition exec_broken : list Event -> list string -> Capture -> CompletedProcess :=
  fun _ argv _ => {| returncode := 1; stdout := "E: " +:+ PyStr.join_lines argv |}.

Definition sample_uuid : Uuid.UUID :=
  Uuid.mkUUID 0x8d3c1f2e9a4b11ee8c900242ac120002 eq_refl.
Definition gen_sample : list Event -> Uuid.UUID := fun _ => sample_uuid.

Definition empty_world : World := {| trace := []; files := ∅ |}.

(** A system where no package is present and none can be installed, while
    the service manager works; and one where only restarting the AP daemon
    fails. *)
Definition exec_no_packages : list Event -> list string -> Capture -> CompletedProcess :=
  fun _ argv _ =>
    let tool := hd "" argv in
    if String.eqb tool "dpkg" || String.eqb tool "apt"
    then {| returncode := 100; stdout := "E: Unable to locate package" |}
    else {| returncode := 0; stdout := "" |}.
Definition exec_hostapd_down : list Event -> list string -> Capture -> CompletedProcess :=
  fun _ argv _ =>
    if decide (argv = ["systemctl"; "restart"; "hostapd"])
    then {| returncode := 1; stdout := "Job for hostapd.service failed." |}
    else {| returncode := 0; stdout := "" |}.

(** ** Further vocabulary: whole runs *)

(** The command line of an event, if it is a command; the commands and
    the log lines of a history, in order. *)
Definition command_of (e : Event) : option (list string) :=
  match e with ERun argv _ _ => Some argv | _ => None end.
Definition commands (evs : list Event) : list (list string) := omap command_of evs.
Definition log_line_of (e : Event) : option string :=
  match e with ELog msg => Some msg | _ => None end.
Definition log_lines (evs : list Event) : list string := omap log_line_of evs.

(** The credentials [config_hostapd] derives from a UUID. *)
Definition credentials_of (u : Uuid.UUID) : string * string :=
  ("spiro-" +:+ PyStr.slice 30 36 (Uuid.str u), PyStr.slice 0 8 (Uuid.str u)).

(** What [install_reqs] may add to the history: the segment of dnsmasq,
    followed by the segment of hostapd unless the first one ended the
    operation. *)
Definition install_history (evs : list Event) : Prop :=
  ∃ seg1 o1, pkg_segment "dnsmasq" seg1 o1 ∧
    match o1 with
    | Some _ => evs = seg1
    | None => ∃ seg2 o2, pkg_segment "hostapd" seg2 o2 ∧ evs = seg1 ++ seg2
    end.

(** The events of the middle of [start_ap]: the three files, written in
    the order dhcpcd, dnsmasq, hostapd, between two log lines. *)
Definition configure_events (u : Uuid.UUID) : list Event :=
  [ ELog "Configuring system...";
    EOpen dhcpcd_path; EWrite dhcpcd_path dhcpcd_baseline;
    EWrite dhcpcd_path dhcpcd_static_block;
    EOpen dnsmasq_path; EWrite dnsmasq_path dnsmasq_conf;
    EUuid1 u; EOpen hostapd_path;
    EWrite hostapd_path (hostapd_conf (fst (credentials_of u)) (snd (credentials_of u)));
    ELog "Starting services..." ].

Definition enable_events (q1 q2 q3 q4 : CompletedProcess) : list Event :=
  [ ERun ["systemctl"; "unmask"; "dnsmasq"] CaptureOutput q1;
    ERun ["systemctl"; "enable"; "dnsmasq"] CaptureOutput q2;
    ERun ["systemctl"; "unmask"; "hostapd"] CaptureOutput q3;
    ERun ["systemctl"; "enable"; "hostapd"] CaptureOutput q4 ].

Definition restart_events (p1 p2 p3 : CompletedProcess) : list Event :=
  [ restart_event "dhcpcd" p1; restart_debug "dhcpcd" p1;
    restart_event "dnsmasq" p2; restart_debug "dnsmasq" p2;
    restart_event "hostapd" p3; restart_debug "hostapd" p3 ].

(** The files [start_ap] leaves, given the files it found. *)
Definition configured_files (u : Uuid.UUID) (fs : gmap string string) : gmap string string :=
  <[hostapd_path := hostapd_conf (fst (credentials_of u)) (snd (credentials_of u))]>
    (<[dnsmasq_path := dnsmasq_conf]>
       (<[dhcpcd_path := dhcpcd_baseline +:+ dhcpcd_static_block]> fs)).

(** ** Further vocabulary: what the collaborators were asked

    The answers recorded in a history are those of the oracle, asked with
    the history up to the command. *)

(** The event of running [argv] after the history [t]. *)
Definition run_event (exec : list Event -> list string -> Capture -> CompletedProcess)
    (t : list Event) (argv : list string) (c : Capture) : Event :=
  ERun argv c (exec t argv c).

(** The events of running commands one after another, each one answered
    from the history that holds the previous ones. *)
Fixpoint run_seq (exec : list Event -> list string -> Capture -> CompletedProcess)
    (t : list Event) (cmds : list (list string)) (c : Capture) : list Event :=
  match cmds with
  | [] => []
  | argv :: cmds' =>
      run_event exec t argv c :: run_seq exec (t ++ [run_event exec t argv c]) cmds' c
  end.

(** What the presence query, the installation and the service stop of
    package [r] answer when the package is handled after the history
    [t]. *)
Definition query_of (exec : list Event -> list string -> Capture -> CompletedProcess)
    (t : list Event) (r : string) : CompletedProcess :=
  exec t ["dpkg"; "-l"; r] StdoutPipe.
Definition install_of (exec : list Event -> list string -> Capture -> CompletedProcess)
    (t : list Event) (r : string) : CompletedProcess :=
  exec (t ++ [query_event r (query_of exec t r)])
       ["apt"; "install"; "-y"; r] StderrToStdoutPipe.
Definition stop_of (exec : list Event -> list string -> Capture -> CompletedProcess)
    (t : list Event) (r : string) : CompletedProcess :=
  exec (t ++ [query_event r (query_of exec t r); install_event r (install_of exec t r)])
       ["systemctl"; "stop"; r] StderrToStdoutPipe.

(** Ensuring package [r] after the history [t], by what the commands
    answer: the query exits 0 and nothing else is run; the query exits
    non-zero, the installation exits 0 and the service is stopped; the
    query and the installation exit non-zero, which ends the operation
    with the output of the installation. *)
Inductive pkg_run (exec : list Event -> list string -> Capture -> CompletedProcess)
    (t : list Event) (r : string) : list Event -> option string -> Prop :=
| pkg_run_present :
    returncode (query_of exec t r) = 0%Z ->
    pkg_run exec t r [query_event r (query_of exec t r)] None
| pkg_run_installed :
    returncode (query_of exec t r) <> 0%Z ->
    returncode (install_of exec t r) = 0%Z ->
    pkg_run exec t r
      [query_event r (query_of exec t r); install_event r (install_of exec t r);
       stop_event r (stop_of exec t r)] None
| pkg_run_install_failed :
    returncode (query_of exec t r) <> 0%Z ->
    returncode (install_of exec t r) <> 0%Z ->
    pkg_run exec t r
      [query_event r (query_of exec t r); install_event r (install_of exec t r)]
      (Some (stdout (install_of exec t r))).

(** The events of [install_reqs] after the history [t]: dnsmasq, then
    hostapd unless the installation of dnsmasq failed. *)
Definition install_run (exec : list Event -> list string -> Capture -> CompletedProcess)
    (t : list Event) (evs : list Event) : Prop :=
  ∃ seg1 o1, pkg_run exec t "dnsmasq" seg1 o1 ∧
    match o1 with
    | Some _ => evs = seg1
    | None => ∃ seg2 o2, pkg_run exec (t ++ seg1) "hostapd" seg2 o2 ∧ evs = seg1 ++ seg2
    end.

(** * Properties *)

(** ** Python strings, hexadecimal numerals, [textwrap.dedent] *)

Module PyStrFacts.
Import PyStr.
#[local] Arguments String.append !_ _ : simpl nomatch.

Lemma hex_digit_is_hex d : is_hex_char (hex_digit d) = true.
Proof.
  unfold hex_digit. generalize (N.to_nat d) as k. intros k.
  do 16 (destruct k as [|k]; [reflexivity|]).
  cbn. destruct k; reflexivity.
Qed.

Lemma hex_value_digit d : (d < 16)%N -> hex_value (hex_digit d) = d.
Proof.
  intros H.
  assert (Hd : d = N.of_nat (N.to_nat d)) by lia.
  assert (Hk : N.to_nat d < 16) by lia.
  revert Hd Hk. unfold hex_digit. generalize (N.to_nat d) as k. intros k Hd Hk. subst d.
  do 16 (destruct k as [|k]; [reflexivity|]). lia.
Qed.

Lemma hex_aux_all_hex fuel : forall n acc,
  all_chars is_hex_char acc = true ->
  all_chars is_hex_char (hex_of_N_aux fuel n acc) = true.
Proof.
  induction fuel as [|fuel IH]; intros n acc Hacc; cbn [hex_of_N_aux]; [exact Hacc|].
  assert (H' : all_chars is_hex_char (String (hex_digit (n mod 16)) acc) = true).
  { cbn [all_chars]. now rewrite hex_digit_is_hex. }
  cbv zeta. destruct (n / 16 =? 0)%N; [exact H' | now apply IH].
Qed.

Lemma hex_aux_length fuel : forall n acc k,
  (n < 16 ^ N.of_nat (S k))%N ->
  String.length (hex_of_N_aux fuel n acc) <= S k + String.length acc.
Proof.
  induction fuel as [|fuel IH]; intros n acc k Hn; cbn [hex_of_N_aux]; [lia|].
  cbv zeta. destruct (N.eqb_spec (n / 16) 0) as [Hq|Hq]; [cbn [String.length]; lia|].
  destruct k as [|k].
  - exfalso. apply Hq. apply N.div_small. exact Hn.
  - specialize (IH (n / 16)%N (String (hex_digit (n mod 16)) acc) k).
    cbn [String.length] in IH.
    assert ((n / 16 < 16 ^ N.of_nat (S k))%N).
    { apply N.Div0.div_lt_upper_bound.
      replace (N.of_nat (S (S k))) with (N.succ (N.of_nat (S k))) in Hn by lia.
      rewrite N.pow_succ_r' in Hn. exact Hn. }
    specialize (IH H). lia.
Qed.

Lemma string_length_app (s t : string) :
  String.length (s +:+ t) = String.length s + String.length t.
Proof. induction s as [|c s IH]; simpl; [reflexivity | now rewrite IH]. Qed.

Lemma string_app_assoc (s t u : string) : (s +:+ t) +:+ u = s +:+ (t +:+ u).
Proof. induction s as [|c s IH]; simpl; [reflexivity | now rewrite IH]. Qed.

Lemma all_chars_app P (s t : string) :
  all_chars P (s +:+ t) = all_chars P s && all_chars P t.
Proof. induction s as [|c s IH]; simpl; [reflexivity|]. destruct (P c); [exact IH | reflexivity]. Qed.

Lemma replicate_char_length n c : String.length (replicate_char n c) = n.
Proof. induction n as [|n IH]; cbn; [reflexivity | now rewrite IH]. Qed.

Lemma replicate_char_all P n c : P c = true -> all_chars P (replicate_char n c) = true.
Proof. intros H. induction n as [|n IH]; cbn; [reflexivity | now rewrite H]. Qed.

Lemma hex_of_N_length n k :
  (n < 16 ^ N.of_nat (S k))%N -> String.length (hex_of_N n) <= S k.
Proof.
  intros H. unfold hex_of_N.
  pose proof (hex_aux_length (S (N.to_nat (N.log2 n))) n EmptyString k H) as L.
  cbn [String.length] in L. lia.
Qed.

Lemma hex_padded_length k n :
  (n < 16 ^ N.of_nat (S k))%N -> String.length (hex_padded (S k) n) = S k.
Proof.
  intros H. unfold hex_padded. cbv zeta.
  rewrite string_length_app, replicate_char_length.
  pose proof (hex_of_N_length n k H). lia.
Qed.

Lemma hex_padded_all_hex w n : all_chars is_hex_char (hex_padded w n) = true.
Proof.
  unfold hex_padded. cbv zeta. rewrite all_chars_app.
  rewrite replicate_char_all by reflexivity.
  apply hex_aux_all_hex. reflexivity.
Qed.

(** Reading back what [hex_of_N] prints gives the number: the digits are
    those of [n] in base 16 and the fuel of [hex_of_N] is enough. *)
Lemma hex_aux_acc fuel : forall n acc,
  hex_of_N_aux fuel n acc = hex_of_N_aux fuel n EmptyString +:+ acc.
Proof.
  induction fuel as [|fuel IH]; intros n acc; cbn [hex_of_N_aux]; [reflexivity|].
  cbv zeta. destruct (n / 16 =? 0)%N; [reflexivity|].
  rewrite (IH _ (String _ acc)), (IH _ (String _ EmptyString)).
  now rewrite string_app_assoc.
Qed.

Lemma N_of_hex_aux_snoc s : forall c a,
  N_of_hex_aux (s +:+ String c EmptyString) a = (16 * N_of_hex_aux s a + hex_value c)%N.
Proof. induction s as [|d s IH]; intros c a; simpl; [reflexivity | apply IH]. Qed.

Lemma N_of_hex_aux_hex_aux fuel : forall n,
  (n < 16 ^ N.of_nat fuel)%N ->
  N_of_hex_aux (hex_of_N_aux fuel n EmptyString) 0 = n.
Proof.
  induction fuel as [|fuel IH]; intros n Hn.
  - cbn in *. lia.
  - cbn [hex_of_N_aux]. cbv zeta.
    assert (Hm : (n mod 16 < 16)%N) by (apply N.mod_upper_bound; lia).
    pose proof (N.div_mod n 16 ltac:(lia)) as Hdm.
    destruct (N.eqb_spec (n / 16) 0) as [Hq|Hq].
    + cbn [N_of_hex_aux]. rewrite hex_value_digit by exact Hm. lia.
    + rewrite hex_aux_acc, N_of_hex_aux_snoc, hex_value_digit by exact Hm.
      rewrite IH; [lia|].
      apply N.Div0.div_lt_upper_bound.
      replace (N.of_nat (S fuel)) with (N.succ (N.of_nat fuel)) in Hn by lia.
      now rewrite N.pow_succ_r' in Hn.
Qed.

Lemma N_of_hex_of_N n : N_of_hex (hex_of_N n) = n.
Proof.
  unfold N_of_hex, hex_of_N. apply N_of_hex_aux_hex_aux.
  destruct n as [|p]; [reflexivity|].
  set (m := N.pos p).
  assert (Hlog : (m < 2 ^ N.succ (N.log2 m))%N) by (apply N.log2_spec; lia).
  replace (N.of_nat (S (N.to_nat (N.log2 m)))) with (N.succ (N.log2 m)) by lia.
  eapply N.lt_le_trans; [exact Hlog|].
  apply N.pow_le_mono_l. lia.
Qed.


Lemma split_lines_line l rest :
  no_newline l = true ->
  split_lines (l +:+ String nl rest) = l :: split_lines rest.
Proof.
  induction l as [|c l IH]; intros H.
  - reflexivity.
  - cbn [no_newline all_chars] in H. unfold no_newline in IH.
    destruct (not_nl c) eqn:Hc; [|discriminate].
    simpl. unfold not_nl in Hc. apply negb_true_iff in Hc. rewrite Hc.
    now rewrite (IH H).
Qed.

Lemma split_lines_last l : no_newline l = true -> split_lines l = [l].
Proof.
  induction l as [|c l IH]; intros H; [reflexivity|].
  cbn [no_newline all_chars] in H. unfold no_newline in IH.
  destruct (not_nl c) eqn:Hc; [|discriminate].
  simpl. unfold not_nl in Hc. apply negb_true_iff in Hc. rewrite Hc.
  now rewrite (IH H).
Qed.

Lemma split_join_lines l ls :
  forallb no_newline (l :: ls) = true ->
  split_lines (join_lines (l :: ls)) = l :: ls.
Proof.
  revert l. induction ls as [|l' ls IH]; intros l H.
  - cbn in H. rewrite andb_true_r in H. now apply split_lines_last.
  - cbn [forallb] in H. apply andb_prop in H as [Hl H].
    cbn [join_lines]. rewrite split_lines_line by exact Hl.
    f_equal. apply IH. exact H.
Qed.

Lemma hex_char_not_nl c : is_hex_char c = true -> not_nl c = true.
Proof. destruct c as [[] [] [] [] [] [] [] []]; cbv; congruence. Qed.

Lemma all_hex_no_newline s : all_chars is_hex_char s = true -> no_newline s = true.
Proof.
  induction s as [|c s IH]; [reflexivity|]. cbn [all_chars no_newline].
  destruct (is_hex_char c) eqn:Hc; [|discriminate].
  intros H. rewrite (hex_char_not_nl c Hc). now apply IH.
Qed.


Lemma format_hostapd_template id pwd :
  format hostapd_template [id; pwd] =
  join_lines (map (String.append indent32) (hostapd_conf_lines id pwd)).
Proof. vm_compute. reflexivity. Qed.

Lemma dedent_hostapd id pwd :
  no_newline id = true -> no_newline pwd = true ->
  dedent (format hostapd_template [id; pwd]) = hostapd_conf id pwd.
Proof.
  intros Hid Hpwd. rewrite format_hostapd_template. unfold dedent.
  cbn [map hostapd_conf_lines]. rewrite split_join_lines.
  - vm_compute. reflexivity.
  - cbn [forallb].
    change (no_newline (indent32 +:+ "ssid=" +:+ id)) with (no_newline id).
    change (no_newline (indent32 +:+ "wpa_passphrase=" +:+ pwd)) with (no_newline pwd).
    rewrite Hid, Hpwd. vm_compute. reflexivity.
Qed.

Ltac next_char x := destruct x as [|? x]; [discriminate|].
Ltac last_char x := destruct x; [|discriminate].

Ltac split_all_chars H :=
  repeat match type of H with
         | (if ?P ?c then _ else false) = true =>
             let E := fresh "Hc" in destruct (P c) eqn:E; [|discriminate H]
         end.

Ltac split_andb H :=
  repeat match type of H with
         | (_ && _) = true =>
             let E := fresh "Hc" in apply andb_prop in H; destruct H as [E H]
         end.

Ltac use_char_facts :=
  repeat match goal with
         | H : is_hex_char ?c = true |- _ => rewrite H; clear H
         end.

Lemma uuid_hex_length u : String.length (Uuid.hex u) = 32.
Proof.
  unfold Uuid.hex. apply (hex_padded_length 31).
  pose proof (Uuid.int_range u) as H. apply N.ltb_lt in H.
  replace (16 ^ N.of_nat 32)%N with (2 ^ 128)%N by (vm_compute; reflexivity).
  exact H.
Qed.

Lemma uuid_hex_all_hex u : all_chars is_hex_char (Uuid.hex u) = true.
Proof. apply hex_padded_all_hex. Qed.

Lemma uuid_str_canonical u : Uuid.canonical (Uuid.str u) = true.
Proof.
  pose proof (uuid_hex_length u) as Hlen. pose proof (uuid_hex_all_hex u) as Hall.
  unfold Uuid.str. cbv zeta. revert Hlen Hall. generalize (Uuid.hex u) as x.
  intros x Hlen Hall. do 32 next_char x. last_char x.
  cbn [all_chars] in Hall. split_all_chars Hall.
  cbn -[is_hex_char]. use_char_facts. reflexivity.
Qed.

Lemma canonical_slices s :
  Uuid.canonical s = true ->
  String.length (slice 0 8 s) = 8 /\ all_chars is_hex_char (slice 0 8 s) = true /\
  String.length (slice 30 36 s) = 6 /\ all_chars is_hex_char (slice 30 36 s) = true /\
  slice 0 8 s = take 8 s /\ slice 30 36 s = drop (String.length s - 6) s.
Proof.
  unfold Uuid.canonical. intros H. apply andb_prop in H as [Hlen H].
  apply Nat.eqb_eq in Hlen. do 36 next_char s. last_char s.
  cbn -[is_hex_char] in H. split_andb H.
  cbn -[is_hex_char]. use_char_facts. repeat split; reflexivity.
Qed.

(** *** The model on documented inputs *)

(** The example of the documentation of [textwrap.dedent]. *)
Example dedent_hello_world :
  dedent ("    hello" +:+ String nl ("      world" +:+ String nl "    "))
  = "hello" +:+ String nl ("  world" +:+ String nl "").
Proof. vm_compute. reflexivity. Qed.

(** A tab and spaces have no common margin: nothing is removed. *)
Example dedent_tab_and_spaces :
  dedent ("  hello" +:+ String nl (String tab "world"))
  = "  hello" +:+ String nl (String tab "world").
Proof. vm_compute. reflexivity. Qed.

(** A line break in a substituted value changes what [dedent] removes:
    the order [format] then [dedent] matters. *)
Example dedent_after_format_with_line_break :
  dedent (format "    a={0}" ["x" +:+ String nl "y"])
  = "    a=x" +:+ String nl "y".
Proof. vm_compute. reflexivity. Qed.

Example format_positional :
  format "Restarted service {0} with status code {1}." ["hostapd"; str_of_int (-9)]
  = "Restarted service hostapd with status code -9.".
Proof. vm_compute. reflexivity. Qed.

Example hex_padded_small : hex_padded 32 1 = "00000000000000000000000000000001".
Proof. vm_compute. reflexivity. Qed.

Example uuid_str_sample :
  Uuid.str sample_uuid = "8d3c1f2e-9a4b-11ee-8c90-0242ac120002".
Proof. vm_compute. reflexivity. Qed.

End PyStrFacts.

(** ** Histories *)

Lemma trace_emits evs : forall w, trace (emits evs w) = trace w ++ evs.
Proof.
  induction evs as [|e evs IH]; intros w; cbn [emits fold_left].
  - now rewrite app_nil_r.
  - fold (emits evs (emit e w)). rewrite IH. cbn [emit trace].
    now rewrite <- app_assoc.
Qed.

Lemma files_emits evs : forall w, files (emits evs w) = files w.
Proof.
  induction evs as [|e evs IH]; intros w; cbn [emits fold_left]; [reflexivity|].
  fold (emits evs (emit e w)). now rewrite IH.
Qed.

Lemma emits_app evs1 evs2 w : emits (evs1 ++ evs2) w = emits evs2 (emits evs1 w).
Proof. unfold emits. apply fold_left_app. Qed.

Lemma new_events_eq {A} (m : M A) w evs :
  trace (after m w) = trace w ++ evs -> new_events m w = evs.
Proof. intros H. unfold new_events. rewrite H. apply drop_app_length. Qed.

Lemma count_events_app f evs1 evs2 :
  count_events f (evs1 ++ evs2) = count_events f evs1 + count_events f evs2.
Proof. unfold count_events. now rewrite List.filter_app, length_app. Qed.

Lemma count_uuid1_runs evs : forallb is_run evs = true -> count_events is_uuid1 evs = 0.
Proof.
  induction evs as [|e evs IH]; [reflexivity|]. cbn [forallb].
  intros H. apply andb_prop in H as [He H]. destruct e; try discriminate He.
  exact (IH H).
Qed.

(** ** [restart_services] *)

(** One run of [restart_services], command by command: each command is
    answered from the history that includes the previous ones. *)
Lemma restart_services_run exec w :
  let p1 := exec (trace w) ["systemctl"; "restart"; "dhcpcd"] StderrToStdoutPipe in
  let w1 := emits [restart_event "dhcpcd" p1; restart_debug "dhcpcd" p1] w in
  let p2 := exec (trace w1) ["systemctl"; "restart"; "dnsmasq"] StderrToStdoutPipe in
  let w2 := emits [restart_event "dnsmasq" p2; restart_debug "dnsmasq" p2] w1 in
  let p3 := exec (trace w2) ["systemctl"; "restart"; "hostapd"] StderrToStdoutPipe in
  let w3 := emits [restart_event "hostapd" p3; restart_debug "hostapd" p3] w2 in
  restart_services exec w =
    (forallb (fun c => (c =? 0)%Z) [returncode p1; returncode p2; returncode p3], w3).
Proof. reflexivity. Qed.

(** C2: [restart_services] restarts dhcpcd, then dnsmasq, then hostapd,
    all three whatever the earlier ones answered, each followed by its
    debug line; [p1], [p2], [p3] are what the service manager answers,
    each asked with the history up to its command.  The files are left
    alone, and the result is [True] exactly when the three exit codes are
    all 0: any non-zero code gives [False]. *)
Theorem restart_services_iff_all_zero exec w :
  let p1 := exec (trace w) ["systemctl"; "restart"; "dhcpcd"] StderrToStdoutPipe in
  let t1 := trace w ++ [restart_event "dhcpcd" p1; restart_debug "dhcpcd" p1] in
  let p2 := exec t1 ["systemctl"; "restart"; "dnsmasq"] StderrToStdoutPipe in
  let t2 := t1 ++ [restart_event "dnsmasq" p2; restart_debug "dnsmasq" p2] in
  let p3 := exec t2 ["systemctl"; "restart"; "hostapd"] StderrToStdoutPipe in
  trace (after (restart_services exec) w) =
    t2 ++ [restart_event "hostapd" p3; restart_debug "hostapd" p3] ∧
  files (after (restart_services exec) w) = files w ∧
  (result (restart_services exec) w = true ↔
     returncode p1 = 0%Z ∧ returncode p2 = 0%Z ∧ returncode p3 = 0%Z) ∧
  (result (restart_services exec) w = false ↔
     returncode p1 ≠ 0%Z ∨ returncode p2 ≠ 0%Z ∨ returncode p3 ≠ 0%Z).
Proof.
  intros p1 t1 p2 t2 p3.
  pose proof (restart_services_run exec w) as E. cbv zeta in E.
  rewrite !trace_emits in E. fold p1 in E. fold t1 in E. fold p2 in E. fold t2 in E.
  fold p3 in E.
  unfold result, after. rewrite E. cbn [fst snd].
  rewrite !trace_emits, !files_emits. fold t1. fold t2.
  split; [reflexivity|]. split; [reflexivity|].
  cbn [forallb]. rewrite andb_true_r.
  destruct (Z.eqb_spec (returncode p1) 0), (Z.eqb_spec (returncode p2) 0),
           (Z.eqb_spec (returncode p3) 0); cbn;
    split; split; intros; try discriminate; intuition congruence.
Qed.

(** The example of the specification: exit codes 0, 1, 0 give [False]. *)
Example restart_services_0_1_0 :
  result (restart_services
            (fun _ argv _ =>
               {| returncode := if decide (argv = ["systemctl"; "restart"; "dnsmasq"])
                                then 1 else 0;
                  stdout := "" |}))
         empty_world = false.
Proof. vm_compute. reflexivity. Qed.

(** ** [install_reqs] *)

(** One turn of the loop: the events of the package, and either the end of
    the whole operation or the rest of the loop. *)
Lemma install_reqs_loop_step exec r reqs w :
  ∃ seg o, pkg_segment r seg o ∧
    install_reqs_loop exec (r :: reqs) w =
      match o with
      | Some out => ((false, Some out), emits seg w)
      | None => install_reqs_loop exec reqs (emits seg w)
      end.
Proof.
  cbn [install_reqs_loop]. unfold bind, run, ret. cbv zeta.
  set (q := exec (trace w) ["dpkg"; "-l"; r] StdoutPipe).
  destruct (Z.eqb_spec (returncode q) 0) as [Hq|Hq]; cbn [negb].
  - exists [query_event r q], None. split; [now constructor | reflexivity].
  - set (i := exec (trace (emit (ERun ["dpkg"; "-l"; r] StdoutPipe q) w))
                   ["apt"; "install"; "-y"; r] StderrToStdoutPipe).
    destruct (Z.eqb_spec (returncode i) 0) as [Hi|Hi]; cbn [negb].
    + eexists [query_event r q; install_event r i; stop_event r _], None.
      split; [now constructor | reflexivity].
    + exists [query_event r q; install_event r i], (Some (stdout i)).
      split; [now constructor | reflexivity].
Qed.

Lemma install_reqs_cases exec w :
  ∃ seg1 o1, pkg_segment "dnsmasq" seg1 o1 ∧
    match o1 with
    | Some out => install_reqs exec w = ((false, Some out), emits seg1 w)
    | None =>
        ∃ seg2 o2, pkg_segment "hostapd" seg2 o2 ∧
          install_reqs exec w =
            (match o2 with Some out => (false, Some out) | None => (true, None) end,
             emits (seg1 ++ seg2) w)
    end.
Proof.
  unfold install_reqs.
  destruct (install_reqs_loop_step exec "dnsmasq" ["hostapd"] w) as (seg1 & o1 & H1 & E1).
  exists seg1, o1. split; [exact H1|]. rewrite E1. destruct o1 as [out|]; [reflexivity|].
  destruct (install_reqs_loop_step exec "hostapd" [] (emits seg1 w)) as (seg2 & o2 & H2 & E2).
  exists seg2, o2. split; [exact H2|]. rewrite E2, emits_app.
  destruct o2; reflexivity.
Qed.

Lemma install_reqs_new_events exec w :
  ∃ seg1 o1, pkg_segment "dnsmasq" seg1 o1 ∧
    match o1 with
    | Some out =>
        new_events (install_reqs exec) w = seg1 ∧
        result (install_reqs exec) w = (false, Some out)
    | None =>
        ∃ seg2 o2, pkg_segment "hostapd" seg2 o2 ∧
          new_events (install_reqs exec) w = seg1 ++ seg2 ∧
          result (install_reqs exec) w =
            match o2 with
            | Some out => (false, Some out)
            | None => (true, None)
            end
    end.
Proof.
  destruct (install_reqs_cases exec w) as (seg1 & o1 & H1 & H).
  exists seg1, o1. split; [exact H1|]. destruct o1 as [out|].
  - split; [apply new_events_eq|]; unfold result, after; rewrite H; cbn [fst snd].
    + apply trace_emits.
    + reflexivity.
  - destruct H as (seg2 & o2 & H2 & H). exists seg2, o2. split; [exact H2|].
    split; [apply new_events_eq|]; unfold result, after; rewrite H; cbn [fst snd].
    + apply trace_emits.
    + reflexivity.
Qed.

Lemma install_reqs_runs exec w :
  ∃ evs, after (install_reqs exec) w = emits evs w ∧ forallb is_run evs = true.
Proof.
  destruct (install_reqs_cases exec w) as (seg1 & o1 & H1 & H). unfold after.
  destruct o1 as [out|].
  - exists seg1. rewrite H. split; [reflexivity|]. inversion H1; reflexivity.
  - destruct H as (seg2 & o2 & H2 & H). exists (seg1 ++ seg2). rewrite H.
    split; [reflexivity|]. rewrite forallb_app.
    inversion H1; inversion H2; reflexivity.
Qed.

(** One turn of the loop, by what the commands answer after the history
    of [w]. *)
Lemma install_reqs_loop_step_at exec r reqs w :
  ∃ seg o, pkg_run exec (trace w) r seg o ∧
    install_reqs_loop exec (r :: reqs) w =
      match o with
      | Some out => ((false, Some out), emits seg w)
      | None => install_reqs_loop exec reqs (emits seg w)
      end.
Proof.
  cbn [install_reqs_loop]. unfold bind, run, ret. cbv zeta.
  change (exec (trace w) ["dpkg"; "-l"; r] StdoutPipe) with (query_of exec (trace w) r).
  change (ERun ["dpkg"; "-l"; r] StdoutPipe (query_of exec (trace w) r))
    with (query_event r (query_of exec (trace w) r)).
  destruct (Z.eqb_spec (returncode (query_of exec (trace w) r)) 0) as [Hq|Hq]; cbn [negb].
  - eexists _, None. split; [now apply pkg_run_present | reflexivity].
  - change (exec (trace (emit (query_event r (query_of exec (trace w) r)) w))
                 ["apt"; "install"; "-y"; r] StderrToStdoutPipe)
      with (install_of exec (trace w) r).
    change (ERun ["apt"; "install"; "-y"; r] StderrToStdoutPipe (install_of exec (trace w) r))
      with (install_event r (install_of exec (trace w) r)).
    destruct (Z.eqb_spec (returncode (install_of exec (trace w) r)) 0) as [Hi|Hi]; cbn [negb].
    + eexists _, None. split; [now apply pkg_run_installed|].
      assert (T : trace (emit (install_event r (install_of exec (trace w) r))
                           (emit (query_event r (query_of exec (trace w) r)) w))
                  = trace w ++ [query_event r (query_of exec (trace w) r);
                                install_event r (install_of exec (trace w) r)])
        by (cbn [emit trace]; now rewrite <- app_assoc).
      rewrite T. reflexivity.
    + eexists _, (Some _). split; [now apply pkg_run_install_failed | reflexivity].
Qed.

Lemma install_reqs_cases_at exec w :
  ∃ seg1 o1, pkg_run exec (trace w) "dnsmasq" seg1 o1 ∧
    match o1 with
    | Some out => install_reqs exec w = ((false, Some out), emits seg1 w)
    | None =>
        ∃ seg2 o2, pkg_run exec (trace w ++ seg1) "hostapd" seg2 o2 ∧
          install_reqs exec w =
            (match o2 with Some out => (false, Some out) | None => (true, None) end,
             emits (seg1 ++ seg2) w)
    end.
Proof.
  unfold install_reqs.
  destruct (install_reqs_loop_step_at exec "dnsmasq" ["hostapd"] w) as (seg1 & o1 & H1 & E1).
  exists seg1, o1. split; [exact H1|]. rewrite E1. destruct o1 as [out|]; [reflexivity|].
  destruct (install_reqs_loop_step_at exec "hostapd" [] (emits seg1 w)) as (seg2 & o2 & H2 & E2).
  rewrite trace_emits in H2.
  exists seg2, o2. split; [exact H2|]. rewrite E2, emits_app.
  destruct o2; reflexivity.
Qed.

(** C4: [install_reqs] handles dnsmasq, then hostapd, every recorded
    answer being the one the command gives at that point of the history
    ([pkg_run]).  A package whose query exits non-zero is installed; a
    failing installation ends the operation at once with
    [(False, output)], the output being what the install command wrote to
    stdout and stderr combined, and the remaining package is not
    attempted; after a successful installation the service is stopped;
    [(True, None)] is returned only when both packages were present or
    installed without error.  No file is written. *)
Theorem install_reqs_fail_fast exec w :
  files (after (install_reqs exec) w) = files w ∧
  ∃ seg1 o1, pkg_run exec (trace w) "dnsmasq" seg1 o1 ∧
    match o1 with
    | Some out =>
        result (install_reqs exec) w = (false, Some out) ∧
        trace (after (install_reqs exec) w) = trace w ++ seg1
    | None =>
        ∃ seg2 o2, pkg_run exec (trace w ++ seg1) "hostapd" seg2 o2 ∧
          trace (after (install_reqs exec) w) = trace w ++ seg1 ++ seg2 ∧
          result (install_reqs exec) w =
            match o2 with
            | Some out => (false, Some out)
            | None => (true, None)
            end
    end.
Proof.
  destruct (install_reqs_cases_at exec w) as (seg1 & o1 & H1 & H).
  unfold result, after. destruct o1 as [out|].
  - rewrite H. cbn [fst snd]. rewrite files_emits, trace_emits.
    split; [reflexivity|]. exists seg1, (Some out). auto.
  - destruct H as (seg2 & o2 & H2 & H). rewrite H. cbn [fst snd].
    rewrite files_emits, trace_emits.
    split; [reflexivity|]. exists seg1, None. split; [exact H1|].
    exists seg2, o2. auto.
Qed.

Ltac event_cases :=
  repeat match goal with
         | H : In _ (_ ++ _) |- _ => apply in_app_or in H; destruct H as [H|H]
         | H : In _ (_ :: _) |- _ => destruct H as [H|H]
         | H : In _ [] |- _ => destruct H
         | H : pkg_segment _ _ _ |- _ => inversion H; subst; clear H
         end;
  unfold query_event, install_event, stop_event in *;
  repeat match goal with
         | H : In _ (_ ++ _) |- _ => apply in_app_or in H; destruct H as [H|H]
         | H : In _ (_ :: _) |- _ => destruct H as [H|H]
         | H : In _ [] |- _ => destruct H
         | H : _ = _ |- _ => discriminate H
         end.

(** C10: when the presence query of a package exits with status 0,
    [install_reqs] issues neither an install command nor a service-stop
    command for that package; and when [install_reqs] returns success, the
    second component of its result is [None]. *)
Theorem install_reqs_present_untouched exec w :
  (∀ r q,
      In (query_event r q) (new_events (install_reqs exec) w) →
      returncode q = 0%Z →
      ∀ c p,
        ¬ In (ERun ["apt"; "install"; "-y"; r] c p) (new_events (install_reqs exec) w) ∧
        ¬ In (ERun ["systemctl"; "stop"; r] c p) (new_events (install_reqs exec) w)) ∧
  (∀ out, result (install_reqs exec) w = (true, out) → out = None).
Proof.
  destruct (install_reqs_new_events exec w) as (seg1 & o1 & H1 & H).
  destruct o1 as [out1|].
  - destruct H as [-> ->]. split.
    + intros r q Hin Hq c p. split; intros Hin'; event_cases; congruence.
    + intros out [=].
  - destruct H as (seg2 & o2 & H2 & -> & ->). split.
    + intros r q Hin Hq c p. split; intros Hin'; event_cases; congruence.
    + destruct o2; intros out [=]; congruence.
Qed.

(** On a system where everything is already installed, the query of
    dnsmasq exits 0 and nothing is installed or stopped. *)
Lemma install_reqs_present_untouched_witness :
  In (query_event "dnsmasq" (exec_ok [] ["dpkg"; "-l"; "dnsmasq"] StdoutPipe))
     (new_events (install_reqs exec_ok) empty_world) ∧
  returncode (exec_ok [] ["dpkg"; "-l"; "dnsmasq"] StdoutPipe) = 0%Z ∧
  ∀ c p,
    ¬ In (ERun ["apt"; "install"; "-y"; "dnsmasq"] c p)
         (new_events (install_reqs exec_ok) empty_world) ∧
    ¬ In (ERun ["systemctl"; "stop"; "dnsmasq"] c p)
         (new_events (install_reqs exec_ok) empty_world).
Proof.
  assert (Hin : In (query_event "dnsmasq" (exec_ok [] ["dpkg"; "-l"; "dnsmasq"] StdoutPipe))
                   (new_events (install_reqs exec_ok) empty_world))
    by (vm_compute; left; reflexivity).
  split; [exact Hin|]. split; [reflexivity|].
  exact (proj1 (install_reqs_present_untouched exec_ok empty_world)
               "dnsmasq" _ Hin eq_refl).
Defined.

(** ** The configuration files *)

Lemma dedent_dnsmasq : PyStr.dedent dnsmasq_template = dnsmasq_conf.
Proof. vm_compute. reflexivity. Qed.

Lemma dedent_dhcpcd : PyStr.dedent dhcpcd_template = dhcpcd_baseline.
Proof. vm_compute. reflexivity. Qed.

Lemma dedent_dhcpcd_static : PyStr.dedent dhcpcd_static_template = dhcpcd_static_block.
Proof. vm_compute. reflexivity. Qed.

Lemma config_dnsmasq_run w :
  config_dnsmasq w =
    (tt, {| trace := trace w ++ [EOpen dnsmasq_path; EWrite dnsmasq_path dnsmasq_conf];
            files := <[dnsmasq_path := dnsmasq_conf]> (files w) |}).
Proof.
  unfold config_dnsmasq, bind, open_w, write. cbn [trace files].
  rewrite dedent_dnsmasq, lookup_insert_eq, insert_insert_eq, <- app_assoc.
  reflexivity.
Qed.

Lemma config_dhcpcd_run enable w :
  config_dhcpcd enable w =
    (tt, {| trace := trace w ++ [EOpen dhcpcd_path; EWrite dhcpcd_path dhcpcd_baseline]
                       ++ (if enable then [EWrite dhcpcd_path dhcpcd_static_block] else []);
            files := <[dhcpcd_path :=
                         if enable then dhcpcd_baseline +:+ dhcpcd_static_block
                         else dhcpcd_baseline]> (files w) |}).
Proof.
  unfold config_dhcpcd, bind, open_w, write, ret. cbn [trace files].
  rewrite dedent_dhcpcd, dedent_dhcpcd_static.
  destruct enable; cbn [trace files];
    rewrite ?lookup_insert_eq, ?insert_insert_eq, <- ?app_assoc; reflexivity.
Qed.

Lemma uuid_slices (u : Uuid.UUID) :
  let s := Uuid.str u in
  String.length (PyStr.slice 0 8 s) = 8 ∧
  PyStr.all_chars PyStr.is_hex_char (PyStr.slice 0 8 s) = true ∧
  String.length (PyStr.slice 30 36 s) = 6 ∧
  PyStr.all_chars PyStr.is_hex_char (PyStr.slice 30 36 s) = true ∧
  PyStr.slice 0 8 s = first_chars 8 s ∧
  PyStr.slice 30 36 s = last_chars 6 s.
Proof. apply PyStrFacts.canonical_slices, PyStrFacts.uuid_str_canonical. Qed.

(** One run of [config_hostapd]: one UUID is generated, the file is
    opened for writing and written once, with the de-indented template. *)
Lemma config_hostapd_run gen w :
  let u := Uuid.str (gen (trace w)) in
  let ssid := "spiro-" +:+ PyStr.slice 30 36 u in
  let pwd := PyStr.slice 0 8 u in
  config_hostapd gen w =
    ((ssid, pwd),
     {| trace := trace w ++ [EUuid1 (gen (trace w)); EOpen hostapd_path;
                             EWrite hostapd_path (hostapd_conf ssid pwd)];
        files := <[hostapd_path := hostapd_conf ssid pwd]> (files w) |}).
Proof.
  intros u ssid pwd.
  destruct (uuid_slices (gen (trace w))) as (_ & Hpwd & _ & Hid & _).
  cbv zeta in Hpwd, Hid. fold u in Hpwd, Hid.
  assert (Hd : PyStr.dedent (PyStr.format hostapd_template [ssid; pwd]) = hostapd_conf ssid pwd).
  { apply PyStrFacts.dedent_hostapd.
    - apply (PyStrFacts.all_hex_no_newline _ Hid).
    - apply (PyStrFacts.all_hex_no_newline _ Hpwd). }
  unfold config_hostapd, bind, uuid1, open_w, write, ret, emit. cbn [trace files].
  fold u. fold ssid. fold pwd. rewrite Hd.
  rewrite lookup_insert_eq, insert_insert_eq, <- !app_assoc. reflexivity.
Qed.

(** C6: [config_dnsmasq] has no parameter and leaves the same bytes in
    [/etc/dnsmasq.conf] whatever the world it starts from; running it
    again changes no file. *)
Theorem config_dnsmasq_idempotent w w' :
  files (after config_dnsmasq w) !! dnsmasq_path = Some dnsmasq_conf ∧
  files (after config_dnsmasq w') !! dnsmasq_path =
    files (after config_dnsmasq w) !! dnsmasq_path ∧
  files (after config_dnsmasq (after config_dnsmasq w)) = files (after config_dnsmasq w).
Proof.
  unfold after. rewrite !config_dnsmasq_run. cbn [snd files].
  rewrite !lookup_insert_eq, insert_insert_eq. auto.
Qed.

(** C5: the content [config_dhcpcd False] leaves in [/etc/dhcpcd.conf] is
    a strict prefix of the content [config_dhcpcd True] leaves there: the
    baseline block is the same in both, and the static-address block of
    wlan0 follows it only when the flag is true. *)
Theorem config_dhcpcd_strict_prefix w w' :
  ∃ base extra : string,
    files (after (config_dhcpcd false) w) !! dhcpcd_path = Some base ∧
    files (after (config_dhcpcd true) w') !! dhcpcd_path = Some (base +:+ extra) ∧
    base = dhcpcd_baseline ∧
    extra = dhcpcd_static_block ∧
    String.prefix base (base +:+ extra) = true ∧
    base ≠ base +:+ extra.
Proof.
  exists dhcpcd_baseline, dhcpcd_static_block.
  unfold after. rewrite !config_dhcpcd_run. cbn [snd files].
  rewrite !lookup_insert_eq. repeat (split; [reflexivity|]).
  intros H. apply (f_equal String.length) in H. vm_compute in H. discriminate H.
Qed.

(** C7: every call of [config_hostapd] replaces the whole of
    [/etc/hostapd/hostapd.conf], whatever it held, by the sixteen lines
    below, of which only the [ssid] and [wpa_passphrase] lines vary (the
    values hold no line break); every other file is left as it was. *)
Theorem config_hostapd_template gen w :
  ∃ ssid pwd : string,
    result (config_hostapd gen) w = (ssid, pwd) ∧
    no_newline ssid = true ∧ no_newline pwd = true ∧
    files (after (config_hostapd gen) w) !! hostapd_path =
      Some (PyStr.join_lines
              [ "# auto-generated by spiro software";
                "interface=wlan0";
                "driver=nl80211";
                "ssid=" +:+ ssid;
                "hw_mode=g";
                "channel=7";
                "wmm_enabled=0";
                "macaddr_acl=0";
                "auth_algs=1";
                "ignore_broadcast_ssid=0";
                "wpa=2";
                "wpa_passphrase=" +:+ pwd;
                "wpa_key_mgmt=WPA-PSK";
                "wpa_pairwise=TKIP";
                "rsn_pairwise=CCMP";
                "" ]) ∧
    (∀ path, path ≠ hostapd_path →
       files (after (config_hostapd gen) w) !! path = files w !! path).
Proof.
  pose proof (config_hostapd_run gen w) as E. cbv zeta in E.
  destruct (uuid_slices (gen (trace w))) as (_ & Hp & _ & Hs & _). cbv zeta in Hp, Hs.
  eexists _, _. unfold result, after. rewrite E. cbn [fst snd files].
  split; [reflexivity|].
  split; [exact (PyStrFacts.all_hex_no_newline _ Hs)|].
  split; [exact (PyStrFacts.all_hex_no_newline _ Hp)|].
  split; [apply lookup_insert_eq|].
  intros path Hne. now apply lookup_insert_ne.
Qed.

(** C9: the identifier is in canonical form; the passphrase is its slice
    [0:8] and has exactly 8 characters, the SSID is ["spiro-"] followed by
    its slice [30:36] and has exactly 12 characters; both slices consist of
    hexadecimal digits only (no hyphen); so the passphrase has the 8
    characters WPA2-PSK asks for at least. *)
Theorem config_hostapd_lengths gen w :
  let u := Uuid.str (gen (trace w)) in
  let ssid := fst (result (config_hostapd gen) w) in
  let pwd := snd (result (config_hostapd gen) w) in
  Uuid.canonical u = true ∧
  pwd = PyStr.slice 0 8 u ∧
  ssid = "spiro-" +:+ PyStr.slice 30 36 u ∧
  String.length pwd = 8 ∧
  String.length ssid = 12 ∧
  PyStr.all_chars PyStr.is_hex_char (PyStr.slice 0 8 u) = true ∧
  PyStr.all_chars PyStr.is_hex_char (PyStr.slice 30 36 u) = true ∧
  8 ≤ String.length pwd.
Proof.
  intros u ssid pwd.
  pose proof (config_hostapd_run gen w) as E. cbv zeta in E. fold u in E.
  destruct (uuid_slices (gen (trace w))) as (Lp & Hp & Ls & Hs & _).
  cbv zeta in Lp, Hp, Ls, Hs. fold u in Lp, Hp, Ls, Hs.
  assert (Ep : pwd = PyStr.slice 0 8 u) by (subst pwd; unfold result; now rewrite E).
  assert (Es : ssid = "spiro-" +:+ PyStr.slice 30 36 u)
    by (subst ssid; unfold result; now rewrite E).
  split; [apply PyStrFacts.uuid_str_canonical|].
  split; [exact Ep|]. split; [exact Es|].
  rewrite Ep, Es, PyStrFacts.string_length_app, Lp, Ls.
  repeat split; auto.
Qed.

(** ** [start_ap] *)

Lemma init_run exec w :
  init exec w =
    (tt, emit (ERun ["systemctl"; "daemon-reload"] StderrToStdoutPipe
                 (exec (trace w) ["systemctl"; "daemon-reload"] StderrToStdoutPipe)) w).
Proof. reflexivity. Qed.

Lemma enable_services_run exec w :
  let p1 := exec (trace w) ["systemctl"; "unmask"; "dnsmasq"] CaptureOutput in
  let w1 := emit (ERun ["systemctl"; "unmask"; "dnsmasq"] CaptureOutput p1) w in
  let p2 := exec (trace w1) ["systemctl"; "enable"; "dnsmasq"] CaptureOutput in
  let w2 := emit (ERun ["systemctl"; "enable"; "dnsmasq"] CaptureOutput p2) w1 in
  let p3 := exec (trace w2) ["systemctl"; "unmask"; "hostapd"] CaptureOutput in
  let w3 := emit (ERun ["systemctl"; "unmask"; "hostapd"] CaptureOutput p3) w2 in
  let p4 := exec (trace w3) ["systemctl"; "enable"; "hostapd"] CaptureOutput in
  enable_services exec w =
    (tt, emit (ERun ["systemctl"; "enable"; "hostapd"] CaptureOutput p4) w3).
Proof. reflexivity. Qed.

Ltac run_step :=
  match goal with
  | |- context [let (_, _) := ?x in _] => destruct x as [? ?]; cbn [fst snd]
  end.

(** [start_ap] as the sequence of its steps: the worlds in which
    [install_reqs] and [restart_services] run, and how the outcome of the
    latter alone decides the exit code and the closing log lines. *)
Lemma start_ap_unfold exec gen w :
  let w0 := after (init exec) (emit (ELog "Setting up dependencies...") w) in
  let w1 := after (install_reqs exec) w0 in
  let w2 := after config_dnsmasq
              (after (config_dhcpcd true) (emit (ELog "Configuring system...") w1)) in
  let cred := result (config_hostapd gen) w2 in
  let w3 := after (enable_services exec)
              (emit (ELog "Starting services...") (after (config_hostapd gen) w2)) in
  let r := result (restart_services exec) w3 in
  let w4 := after (restart_services exec) w3 in
  start_ap exec gen w = ((if r then 0 else 1)%Z, emits (final_logs r cred) w4).
Proof.
  intros w0 w1 w2 cred w3 r w4. subst w0 w1 w2 cred w3 r w4.
  unfold start_ap, bind, result, after, log. cbn [fst snd].
  do 5 run_step.
  match goal with |- context [let '(_, _) := ?c in _] => destruct c as [ssid pwd] end.
  run_step. run_step.
  match goal with |- context [negb ?b] => destruct b end; reflexivity.
Qed.

(** The configuration phase of [start_ap], from the log line that opens it
    to the last [systemctl enable]. *)
Lemma configure_phase exec gen w :
  let wc := after (enable_services exec)
              (emit (ELog "Starting services...")
                 (after (config_hostapd gen)
                    (after config_dnsmasq
                       (after (config_dhcpcd true)
                          (emit (ELog "Configuring system...") w))))) in
  ∃ u content runs,
    trace wc =
      trace w ++ [ELog "Configuring system...";
                  EOpen dhcpcd_path; EWrite dhcpcd_path dhcpcd_baseline;
                  EWrite dhcpcd_path dhcpcd_static_block;
                  EOpen dnsmasq_path; EWrite dnsmasq_path dnsmasq_conf;
                  EUuid1 u; EOpen hostapd_path; EWrite hostapd_path content;
                  ELog "Starting services..."] ++ runs ∧
    forallb is_run runs = true.
Proof.
  intros wc. subst wc. unfold after.
  rewrite config_dhcpcd_run. cbn [snd].
  rewrite config_dnsmasq_run. cbn [snd].
  pose proof (config_hostapd_run gen) as Hh. cbv zeta in Hh. rewrite Hh. cbn [snd].
  pose proof (enable_services_run exec) as He. cbv zeta in He. rewrite He.
  cbn [snd emit trace files].
  eexists _, _, [_; _; _; _]. rewrite <- !app_assoc. cbn [app].
  split; reflexivity.
Qed.

(** C1: [start_ap] runs [install_reqs] (in [w0]) and never looks at what
    it returned; later it runs [restart_services] (in [w1]) and returns 1
    when that returned [False] and 0 when it returned [True], that is, 0
    exactly when the three restart commands all exited with 0.  After the
    restarts only log lines follow. *)
Theorem start_ap_exit_code exec gen w :
  ∃ (w0 w1 : World) (p1 p2 p3 : CompletedProcess) (logs : list Event),
    trace w `prefix_of` trace w0 ∧
    trace (after (install_reqs exec) w0) `prefix_of` trace w1 ∧
    result (start_ap exec gen) w =
      (if result (restart_services exec) w1 then 0 else 1)%Z ∧
    result (restart_services exec) w1 =
      forallb (λ c, (c =? 0)%Z) [returncode p1; returncode p2; returncode p3] ∧
    trace (after (start_ap exec gen) w) =
      trace w1 ++ [restart_event "dhcpcd" p1; restart_debug "dhcpcd" p1;
                   restart_event "dnsmasq" p2; restart_debug "dnsmasq" p2;
                   restart_event "hostapd" p3; restart_debug "hostapd" p3] ++ logs ∧
    forallb is_log logs = true.
Proof.
  pose proof (start_ap_unfold exec gen w) as E. cbv zeta in E.
  set (w0 := after (init exec) (emit (ELog "Setting up dependencies...") w)) in E.
  set (wi := after (install_reqs exec) w0) in E.
  set (w1 := after (enable_services exec) _) in E.
  pose proof (restart_services_run exec w1) as R. cbv zeta in R.
  exists w0, w1. eexists _, _, _, (final_logs (result (restart_services exec) w1) _).
  split; [|split; [|split; [|split; [|split]]]].
  - subst w0. unfold after. rewrite init_run. cbn [snd emit trace].
    eexists [_; _]. now rewrite <- app_assoc.
  - destruct (configure_phase exec gen wi) as (u & content & runs & T & _).
    cbv zeta in T. fold w1 in T.
    rewrite T. eexists. reflexivity.
  - unfold result at 1. rewrite E. reflexivity.
  - unfold result. rewrite R. reflexivity.
  - unfold after at 1. rewrite E. cbn [snd]. rewrite trace_emits.
    unfold after. rewrite R. cbn [snd]. rewrite !trace_emits, <- !app_assoc.
    reflexivity.
  - destruct (result (restart_services exec) w1); reflexivity.
Qed.

(** The four combinations of the two outcomes occur: the exit code follows
    the restarts, not the installation. *)
Example start_ap_install_ok_restart_ok :
  result (install_reqs exec_ok) empty_world = (true, None) ∧
  result (start_ap exec_ok gen_sample) empty_world = 0%Z.
Proof. split; vm_compute; reflexivity. Qed.

Example start_ap_install_failed_restart_ok :
  result (install_reqs exec_no_packages) empty_world
    = (false, Some "E: Unable to locate package") ∧
  result (start_ap exec_no_packages gen_sample) empty_world = 0%Z.
Proof. split; vm_compute; reflexivity. Qed.

Example start_ap_install_ok_restart_failed :
  result (install_reqs exec_hostapd_down) empty_world = (true, None) ∧
  result (start_ap exec_hostapd_down gen_sample) empty_world = 1%Z.
Proof. split; vm_compute; reflexivity. Qed.

Example start_ap_install_failed_restart_failed :
  result (install_reqs exec_broken) empty_world
    = (false, Some ("E: " +:+ PyStr.join_lines ["apt"; "install"; "-y"; "dnsmasq"])) ∧
  result (start_ap exec_broken gen_sample) empty_world = 1%Z.
Proof. split; vm_compute; reflexivity. Qed.

(** The end-to-end scenarios of the specification: with every command
    succeeding the credentials are logged as derived from the identifier;
    with the restart of the AP daemon failing the exit code is 1, the
    failure is logged and the three files have been written all the
    same. *)
Example start_ap_all_succeed :
  let w := after (start_ap exec_ok gen_sample) empty_world in
  result (start_ap exec_ok gen_sample) empty_world = 0%Z ∧
  In (ELog (String PyStr.nl "SSID:     spiro-120002")) (trace w) ∧
  In (ELog "Password: 8d3c1f2e") (trace w).
Proof. vm_compute. intuition. Qed.

Example start_ap_hostapd_down :
  let w := after (start_ap exec_hostapd_down gen_sample) empty_world in
  result (start_ap exec_hostapd_down gen_sample) empty_world = 1%Z ∧
  In (ELog "Failed to restart services.") (trace w) ∧
  files w !! dhcpcd_path = Some (dhcpcd_baseline +:+ dhcpcd_static_block) ∧
  files w !! dnsmasq_path = Some dnsmasq_conf ∧
  files w !! hostapd_path = Some (hostapd_conf "spiro-120002" "8d3c1f2e").
Proof. vm_compute. intuition. Qed.

Lemma start_ap_one_uuid exec gen w :
  count_events is_uuid1 (new_events (start_ap exec gen) w) = 1.
Proof.
  pose proof (start_ap_unfold exec gen w) as E. cbv zeta in E.
  set (w0 := after (init exec) (emit (ELog "Setting up dependencies...") w)) in E.
  set (wi := after (install_reqs exec) w0) in E.
  set (w1 := after (enable_services exec) _) in E.
  destruct (install_reqs_runs exec w0) as (evs & Hi & Hruns). fold wi in Hi.
  destruct (configure_phase exec gen wi) as (u & content & runs & T & Hruns').
  cbv zeta in T. fold w1 in T.
  pose proof (restart_services_run exec w1) as R. cbv zeta in R.
  assert (Tw0 : trace w0 = trace w ++ [ELog "Setting up dependencies...";
            ERun ["systemctl"; "daemon-reload"] StderrToStdoutPipe
              (exec (trace (emit (ELog "Setting up dependencies...") w))
                 ["systemctl"; "daemon-reload"] StderrToStdoutPipe)]).
  { subst w0. unfold after. rewrite init_run. cbn [snd emit trace].
    now rewrite <- app_assoc. }
  erewrite new_events_eq.
  2:{ unfold after at 1. rewrite E. cbn [snd]. rewrite trace_emits.
      unfold after. rewrite R. cbn [snd]. rewrite !trace_emits.
      rewrite T, Hi, trace_emits, Tw0. rewrite <- !app_assoc. reflexivity. }
  rewrite !count_events_app.
  rewrite (count_uuid1_runs evs Hruns), (count_uuid1_runs runs Hruns').
  destruct (result (restart_services exec) w1); reflexivity.
Qed.

(** C3: [config_hostapd] generates one identifier [u] and returns the SSID
    ["spiro-"] followed by the last 6 characters of [u] and, as the
    passphrase, the first 8 characters of the same [u] (hexadecimal digits
    in both cases); these two values are the ones on the [ssid] and
    [wpa_passphrase] lines of the file it writes; and one invocation of
    [start_ap] generates exactly one identifier. *)
Theorem config_hostapd_credentials exec gen w w' :
  let u := Uuid.str (gen (trace w)) in
  let ssid := "spiro-" +:+ last_chars 6 u in
  let pwd := first_chars 8 u in
  result (config_hostapd gen) w = (ssid, pwd) ∧
  PyStr.all_chars PyStr.is_hex_char (last_chars 6 u) = true ∧
  PyStr.all_chars PyStr.is_hex_char (first_chars 8 u) = true ∧
  new_events (config_hostapd gen) w =
    [EUuid1 (gen (trace w)); EOpen hostapd_path;
     EWrite hostapd_path (hostapd_conf ssid pwd)] ∧
  files (after (config_hostapd gen) w) !! hostapd_path = Some (hostapd_conf ssid pwd) ∧
  count_events is_uuid1 (new_events (start_ap exec gen) w') = 1.
Proof.
  intros u ssid pwd.
  destruct (uuid_slices (gen (trace w))) as (_ & Hp & _ & Hs & Ep & Es).
  cbv zeta in Hp, Hs, Ep, Es. fold u in Hp, Hs, Ep, Es.
  pose proof (config_hostapd_run gen w) as E. cbv zeta in E. fold u in E.
  rewrite Ep, Es in E. fold ssid pwd in E. rewrite Ep in Hp. rewrite Es in Hs.
  split; [unfold result; now rewrite E|].
  split; [exact Hs|]. split; [exact Hp|].
  split; [apply new_events_eq; unfold after; now rewrite E|].
  split; [unfold after; rewrite E; cbn [snd files]; apply lookup_insert_eq|].
  apply start_ap_one_uuid.
Qed.

(** ** [stop_ap] *)

Lemma stop_ap_run exec w :
  let w0 := emit (ELog "Disabling services...") w in
  let p1 := exec (trace w0) ["systemctl"; "stop"; "dnsmasq"] CaptureOutput in
  let w1 := emit (ERun ["systemctl"; "stop"; "dnsmasq"] CaptureOutput p1) w0 in
  let p2 := exec (trace w1) ["systemctl"; "disable"; "dnsmasq"] CaptureOutput in
  let w2 := emit (ERun ["systemctl"; "disable"; "dnsmasq"] CaptureOutput p2) w1 in
  let p3 := exec (trace w2) ["systemctl"; "stop"; "hostapd"] CaptureOutput in
  let w3 := emit (ERun ["systemctl"; "stop"; "hostapd"] CaptureOutput p3) w2 in
  let p4 := exec (trace w3) ["systemctl"; "disable"; "hostapd"] CaptureOutput in
  let w4 := emit (ERun ["systemctl"; "disable"; "hostapd"] CaptureOutput p4) w3 in
  stop_ap exec w = (tt, emit (ELog "Access point disabled.") w4).
Proof. reflexivity. Qed.

(** C8: [stop_ap] logs, stops then disables dnsmasq, stops then disables
    hostapd (dhcpcd is not touched), and logs completion; it opens and
    writes no file, so the three configuration files are as before; its
    value is the unit value, not an exit code. *)
Theorem stop_ap_only_disables exec w :
  ∃ p1 p2 p3 p4 : CompletedProcess,
    trace (after (stop_ap exec) w) =
      trace w ++ [ELog "Disabling services...";
                  ERun ["systemctl"; "stop"; "dnsmasq"] CaptureOutput p1;
                  ERun ["systemctl"; "disable"; "dnsmasq"] CaptureOutput p2;
                  ERun ["systemctl"; "stop"; "hostapd"] CaptureOutput p3;
                  ERun ["systemctl"; "disable"; "hostapd"] CaptureOutput p4;
                  ELog "Access point disabled."] ∧
    files (after (stop_ap exec) w) = files w ∧
    files (after (stop_ap exec) w) !! hostapd_path = files w !! hostapd_path ∧
    files (after (stop_ap exec) w) !! dnsmasq_path = files w !! dnsmasq_path ∧
    files (after (stop_ap exec) w) !! dhcpcd_path = files w !! dhcpcd_path ∧
    forallb (λ e, negb (is_file_event e)) (new_events (stop_ap exec) w) = true ∧
    result (stop_ap exec) w = tt.
Proof.
  pose proof (stop_ap_run exec w) as E. cbv zeta in E.
  assert (T : ∃ p1 p2 p3 p4 : CompletedProcess,
    trace (after (stop_ap exec) w) =
      trace w ++ [ELog "Disabling services...";
                  ERun ["systemctl"; "stop"; "dnsmasq"] CaptureOutput p1;
                  ERun ["systemctl"; "disable"; "dnsmasq"] CaptureOutput p2;
                  ERun ["systemctl"; "stop"; "hostapd"] CaptureOutput p3;
                  ERun ["systemctl"; "disable"; "hostapd"] CaptureOutput p4;
                  ELog "Access point disabled."]).
  { unfold after. rewrite E. cbn [snd emit trace]. eexists _, _, _, _.
    rewrite <- !app_assoc. reflexivity. }
  assert (F : files (after (stop_ap exec) w) = files w).
  { unfold after. rewrite E. reflexivity. }
  destruct T as (p1 & p2 & p3 & p4 & T). exists p1, p2, p3, p4.
  split; [exact T|]. rewrite F. repeat (split; [reflexivity|]).
  split; [rewrite (new_events_eq _ _ _ T); reflexivity|].
  now destruct (result (stop_ap exec) w).
Qed.

(** ** Whole runs *)

Lemma world_eq (a b : World) : trace a = trace b -> files a = files b -> a = b.
Proof. destruct a, b. cbn. now intros -> ->. Qed.

Lemma install_reqs_history exec w :
  install_history (new_events (install_reqs exec) w) ∧
  after (install_reqs exec) w = emits (new_events (install_reqs exec) w) w.
Proof.
  destruct (install_reqs_cases exec w) as (seg1 & o1 & H1 & H).
  destruct o1 as [out|].
  - assert (A : after (install_reqs exec) w = emits seg1 w)
      by (unfold after; now rewrite H).
    assert (N : new_events (install_reqs exec) w = seg1)
      by (apply new_events_eq; rewrite A; apply trace_emits).
    rewrite N. split; [|exact A]. exists seg1, (Some out). auto.
  - destruct H as (seg2 & o2 & H2 & H).
    assert (A : after (install_reqs exec) w = emits (seg1 ++ seg2) w)
      by (unfold after; now rewrite H).
    assert (N : new_events (install_reqs exec) w = seg1 ++ seg2)
      by (apply new_events_eq; rewrite A; apply trace_emits).
    rewrite N. split; [|exact A].
    exists seg1, None. split; [exact H1|]. exists seg2, o2. auto.
Qed.

Lemma emits_world evs w : emits evs w = {| trace := trace w ++ evs; files := files w |}.
Proof. apply world_eq; cbn [trace files]; [apply trace_emits | apply files_emits]. Qed.

Lemma after_init exec w :
  ∃ p0, after (init exec) w =
          {| trace := trace w ++ [ERun ["systemctl"; "daemon-reload"] StderrToStdoutPipe p0];
             files := files w |}.
Proof. eexists. unfold after. rewrite init_run. reflexivity. Qed.

Lemma after_config_dhcpcd enable w :
  after (config_dhcpcd enable) w =
    {| trace := trace w ++ [EOpen dhcpcd_path; EWrite dhcpcd_path dhcpcd_baseline]
                  ++ (if enable then [EWrite dhcpcd_path dhcpcd_static_block] else []);
       files := <[dhcpcd_path :=
                    if enable then dhcpcd_baseline +:+ dhcpcd_static_block
                    else dhcpcd_baseline]> (files w) |}.
Proof. unfold after. now rewrite config_dhcpcd_run. Qed.

Lemma after_config_dnsmasq w :
  after config_dnsmasq w =
    {| trace := trace w ++ [EOpen dnsmasq_path; EWrite dnsmasq_path dnsmasq_conf];
       files := <[dnsmasq_path := dnsmasq_conf]> (files w) |}.
Proof. unfold after. now rewrite config_dnsmasq_run. Qed.

Lemma config_hostapd_world gen w :
  let u := gen (trace w) in
  result (config_hostapd gen) w = credentials_of u ∧
  after (config_hostapd gen) w =
    {| trace := trace w ++ [EUuid1 u; EOpen hostapd_path;
                            EWrite hostapd_path
                              (hostapd_conf (fst (credentials_of u)) (snd (credentials_of u)))];
       files := <[hostapd_path :=
                    hostapd_conf (fst (credentials_of u)) (snd (credentials_of u))]>
                  (files w) |}.
Proof.
  intros u. pose proof (config_hostapd_run gen w) as E. cbv zeta in E.
  unfold result, after. rewrite E. split; reflexivity.
Qed.

Lemma after_enable_services exec w :
  ∃ q1 q2 q3 q4,
    after (enable_services exec) w =
      {| trace := trace w ++ enable_events q1 q2 q3 q4; files := files w |}.
Proof.
  pose proof (enable_services_run exec w) as E. cbv zeta in E.
  unfold after. rewrite E. cbn [snd emit trace files]. unfold enable_events.
  eexists _, _, _, _.
  apply world_eq; cbn [trace files emit]; [|reflexivity].
  rewrite <- !app_assoc. reflexivity.
Qed.

Lemma restart_services_world exec w :
  ∃ p1 p2 p3,
    restart_services exec w =
      (forallb (λ c, (c =? 0)%Z) [returncode p1; returncode p2; returncode p3],
       {| trace := trace w ++ restart_events p1 p2 p3; files := files w |}).
Proof.
  pose proof (restart_services_run exec w) as E. cbv zeta in E.
  eexists _, _, _. rewrite E. f_equal.
  apply world_eq; cbn [trace files].
  - rewrite !trace_emits, <- !app_assoc. reflexivity.
  - now rewrite !files_emits.
Qed.

(** A whole run of [start_ap]. *)
Lemma start_ap_run exec gen w :
  ∃ p0 install u q1 q2 q3 q4 p1 p2 p3,
    install_history install ∧
    install = new_events (install_reqs exec)
                {| trace := trace w ++
                     [ELog "Setting up dependencies...";
                      ERun ["systemctl"; "daemon-reload"] StderrToStdoutPipe p0];
                   files := files w |} ∧
    start_ap exec gen w =
      let r := forallb (λ c, (c =? 0)%Z) [returncode p1; returncode p2; returncode p3] in
      ((if r then 0 else 1)%Z,
       {| trace := trace w ++
            [ELog "Setting up dependencies...";
             ERun ["systemctl"; "daemon-reload"] StderrToStdoutPipe p0]
            ++ install ++ configure_events u ++ enable_events q1 q2 q3 q4
            ++ restart_events p1 p2 p3 ++ final_logs r (credentials_of u);
          files := configured_files u (files w) |}).
Proof.
  pose proof (start_ap_unfold exec gen w) as E. cbv zeta in E.
  destruct (after_init exec (emit (ELog "Setting up dependencies...") w)) as (p0 & H0).
  rewrite H0 in E. clear H0.
  match type of E with context [after (install_reqs exec) ?x] =>
    destruct (install_reqs_history exec x) as (Hinst & Hi);
    assert (Hw : x = {| trace := trace w ++
                          [ELog "Setting up dependencies...";
                           ERun ["systemctl"; "daemon-reload"] StderrToStdoutPipe p0];
                        files := files w |})
      by (apply world_eq; cbn [trace files emit]; [now rewrite <- app_assoc | reflexivity]);
    set (install := new_events (install_reqs exec) x) in *
  end.
  rewrite Hi in E. clear Hi.
  rewrite after_config_dhcpcd, after_config_dnsmasq in E.
  match type of E with context [after (config_hostapd gen) ?x] =>
    pose proof (config_hostapd_world gen x) as Hh; cbv zeta in Hh;
    set (u := gen (trace x)) in Hh; destruct Hh as [Hr Ha] end.
  rewrite Hr, Ha in E. clear Hr Ha.
  match type of E with context [after (enable_services exec) ?x] =>
    destruct (after_enable_services exec x) as (q1 & q2 & q3 & q4 & He) end.
  rewrite He in E. clear He.
  match type of E with context [result (restart_services exec) ?x] =>
    destruct (restart_services_world exec x) as (p1 & p2 & p3 & R) end.
  unfold result, after in E. rewrite R in E. cbn [fst snd] in E. clear R.
  exists p0, install, u, q1, q2, q3, q4, p1, p2, p3. split; [exact Hinst|].
  split; [subst install; now rewrite Hw|].
  rewrite E. cbv zeta. f_equal. rewrite !emits_world. cbn [trace files emit].
  apply world_eq; cbn [trace files]; [|reflexivity].
  rewrite <- !app_assoc. reflexivity.
Qed.

Lemma commands_app evs1 evs2 : commands (evs1 ++ evs2) = commands evs1 ++ commands evs2.
Proof. apply omap_app. Qed.

Lemma log_lines_app evs1 evs2 : log_lines (evs1 ++ evs2) = log_lines evs1 ++ log_lines evs2.
Proof. apply omap_app. Qed.

Lemma log_lines_runs evs : forallb is_run evs = true -> log_lines evs = [].
Proof.
  induction evs as [|e evs IH]; [reflexivity|]. cbn [forallb].
  intros H. apply andb_prop in H as [He H]. destruct e; try discriminate He.
  exact (IH H).
Qed.

Lemma install_history_runs evs : install_history evs -> forallb is_run evs = true.
Proof.
  intros (seg1 & o1 & H1 & H). destruct o1 as [out|].
  - subst evs. inversion H1; reflexivity.
  - destruct H as (seg2 & o2 & H2 & ->). rewrite forallb_app.
    inversion H1; inversion H2; reflexivity.
Qed.

Lemma commands_final_logs r cred : commands (final_logs r cred) = [].
Proof. destruct r; reflexivity. Qed.

(** X1: whatever the commands answer, [enable_services] runs exactly four
    commands, unmask then enable for dnsmasq, then unmask then enable for
    hostapd (never dhcpcd); it adds nothing else to the history and
    changes no file. *)
Theorem enable_services_unmask_then_enable exec w :
  commands (new_events (enable_services exec) w) =
    [ ["systemctl"; "unmask"; "dnsmasq"]; ["systemctl"; "enable"; "dnsmasq"];
      ["systemctl"; "unmask"; "hostapd"]; ["systemctl"; "enable"; "hostapd"] ] ∧
  forallb is_run (new_events (enable_services exec) w) = true ∧
  trace w `prefix_of` trace (after (enable_services exec) w) ∧
  files (after (enable_services exec) w) = files w.
Proof.
  destruct (after_enable_services exec w) as (q1 & q2 & q3 & q4 & E).
  assert (N : new_events (enable_services exec) w = enable_events q1 q2 q3 q4)
    by (apply new_events_eq; now rewrite E).
  rewrite N, E. repeat split. now eexists.
Qed.

(** X2: calls of [config_dhcpcd] do not accumulate: after two calls the
    files are those the second call alone leaves, so a call with [False]
    removes the static block a call with [True] had written; and no other
    file is touched. *)
Theorem config_dhcpcd_last_call_wins b1 b2 w :
  files (after (config_dhcpcd b2) (after (config_dhcpcd b1) w)) =
    files (after (config_dhcpcd b2) w) ∧
  files (after (config_dhcpcd b2) (after (config_dhcpcd b1) w)) !! dhcpcd_path =
    Some (if b2 then dhcpcd_baseline +:+ dhcpcd_static_block else dhcpcd_baseline) ∧
  (∀ path, path ≠ dhcpcd_path →
     files (after (config_dhcpcd b1) w) !! path = files w !! path).
Proof.
  rewrite !after_config_dhcpcd. cbn [files].
  rewrite insert_insert_eq, lookup_insert_eq. repeat split.
  intros path Hne. now apply lookup_insert_ne.
Qed.

(** X3: [config_dnsmasq] and [config_dhcpcd] write different files and
    nothing else: in either order they leave the same files, and
    [config_dnsmasq] changes only [/etc/dnsmasq.conf]. *)
Theorem config_dnsmasq_dhcpcd_commute b w :
  files (after config_dnsmasq (after (config_dhcpcd b) w)) =
    files (after (config_dhcpcd b) (after config_dnsmasq w)) ∧
  (∀ path, path ≠ dnsmasq_path →
     files (after config_dnsmasq w) !! path = files w !! path) ∧
  files (after config_dnsmasq (after (config_dhcpcd b) w)) !! dhcpcd_path =
    files (after (config_dhcpcd b) w) !! dhcpcd_path.
Proof.
  rewrite !after_config_dhcpcd, !after_config_dnsmasq, ?after_config_dhcpcd. cbn [files].
  split; [|split].
  - apply insert_insert_ne. discriminate.
  - intros path Hne. now apply lookup_insert_ne.
  - apply lookup_insert_ne. discriminate.
Qed.

Lemma after_init_at exec w :
  after (init exec) w =
    {| trace := trace w ++ [run_event exec (trace w) ["systemctl"; "daemon-reload"]
                              StderrToStdoutPipe];
       files := files w |}.
Proof. unfold after. rewrite init_run. reflexivity. Qed.

Lemma install_reqs_run_at exec w :
  ∃ evs, install_run exec (trace w) evs ∧ after (install_reqs exec) w = emits evs w.
Proof.
  destruct (install_reqs_cases_at exec w) as (seg1 & o1 & H1 & H). unfold after.
  destruct o1 as [out|].
  - exists seg1. rewrite H. split; [|reflexivity]. exists seg1, (Some out). auto.
  - destruct H as (seg2 & o2 & H2 & H). exists (seg1 ++ seg2). rewrite H.
    split; [|reflexivity]. exists seg1, None. split; [exact H1|]. exists seg2, o2. auto.
Qed.

Lemma after_enable_services_at exec w :
  after (enable_services exec) w =
    {| trace := trace w ++
         run_seq exec (trace w)
           [ ["systemctl"; "unmask"; "dnsmasq"]; ["systemctl"; "enable"; "dnsmasq"];
             ["systemctl"; "unmask"; "hostapd"]; ["systemctl"; "enable"; "hostapd"] ]
           CaptureOutput;
       files := files w |}.
Proof.
  pose proof (enable_services_run exec w) as E. cbv zeta in E.
  unfold after. rewrite E. cbn [snd].
  apply world_eq; cbn [trace files emit run_seq run_event]; [|reflexivity].
  rewrite <- !app_assoc. reflexivity.
Qed.

Lemma restart_services_at exec w :
  let p1 := exec (trace w) ["systemctl"; "restart"; "dhcpcd"] StderrToStdoutPipe in
  let t1 := trace w ++ [restart_event "dhcpcd" p1; restart_debug "dhcpcd" p1] in
  let p2 := exec t1 ["systemctl"; "restart"; "dnsmasq"] StderrToStdoutPipe in
  let t2 := t1 ++ [restart_event "dnsmasq" p2; restart_debug "dnsmasq" p2] in
  let p3 := exec t2 ["systemctl"; "restart"; "hostapd"] StderrToStdoutPipe in
  restart_services exec w =
    (forallb (λ c, (c =? 0)%Z) [returncode p1; returncode p2; returncode p3],
     {| trace := t2 ++ [restart_event "hostapd" p3; restart_debug "hostapd" p3];
        files := files w |}).
Proof.
  intros p1 t1 p2 t2 p3.
  pose proof (restart_services_run exec w) as E. cbv zeta in E.
  rewrite !trace_emits in E. fold p1 in E. fold t1 in E. fold p2 in E. fold t2 in E.
  fold p3 in E. rewrite E. f_equal.
  apply world_eq; cbn [trace files]; [|now rewrite !files_emits].
  rewrite !trace_emits. reflexivity.
Qed.

(** A whole run of [start_ap], every answer being the oracle's. *)
Lemma start_ap_run_at exec gen w :
  let t0 := trace w ++ [ELog "Setting up dependencies..."] in
  let t1 := t0 ++ [run_event exec t0 ["systemctl"; "daemon-reload"] StderrToStdoutPipe] in
  ∃ install, install_run exec t1 install ∧
    let t2 := t1 ++ install ++
                [ELog "Configuring system...";
                 EOpen dhcpcd_path; EWrite dhcpcd_path dhcpcd_baseline;
                 EWrite dhcpcd_path dhcpcd_static_block;
                 EOpen dnsmasq_path; EWrite dnsmasq_path dnsmasq_conf] in
    let u := gen t2 in
    let t3 := t2 ++ [EUuid1 u; EOpen hostapd_path;
                     EWrite hostapd_path
                       (hostapd_conf (fst (credentials_of u)) (snd (credentials_of u)));
                     ELog "Starting services..."] in
    let t4 := t3 ++ run_seq exec t3
                [ ["systemctl"; "unmask"; "dnsmasq"]; ["systemctl"; "enable"; "dnsmasq"];
                  ["systemctl"; "unmask"; "hostapd"]; ["systemctl"; "enable"; "hostapd"] ]
                CaptureOutput in
    let p1 := exec t4 ["systemctl"; "restart"; "dhcpcd"] StderrToStdoutPipe in
    let t5 := t4 ++ [restart_event "dhcpcd" p1; restart_debug "dhcpcd" p1] in
    let p2 := exec t5 ["systemctl"; "restart"; "dnsmasq"] StderrToStdoutPipe in
    let t6 := t5 ++ [restart_event "dnsmasq" p2; restart_debug "dnsmasq" p2] in
    let p3 := exec t6 ["systemctl"; "restart"; "hostapd"] StderrToStdoutPipe in
    let t7 := t6 ++ [restart_event "hostapd" p3; restart_debug "hostapd" p3] in
    let r := forallb (λ c, (c =? 0)%Z) [returncode p1; returncode p2; returncode p3] in
    start_ap exec gen w =
      ((if r then 0 else 1)%Z,
       {| trace := t7 ++ final_logs r (credentials_of u);
          files := configured_files u (files w) |}).
Proof.
  intros t0 t1.
  pose proof (start_ap_unfold exec gen w) as E. cbv zeta in E.
  assert (H0 : after (init exec) (emit (ELog "Setting up dependencies...") w)
               = {| trace := t1; files := files w |})
    by (rewrite after_init_at; reflexivity).
  rewrite H0 in E. clear H0. clearbody t1. clear t0.
  destruct (install_reqs_run_at exec {| trace := t1; files := files w |})
    as (install & Hinst & Hi).
  cbn [trace] in Hinst. rewrite Hi, emits_world in E. clear Hi. cbn [trace files] in E.
  exists install. split; [exact Hinst|]. clear Hinst.
  intros t2 u t3 t4 p1 t5 p2 t6 p3 t7 r.
  (* the three files *)
  rewrite after_config_dhcpcd, after_config_dnsmasq in E. cbn [trace files emit] in E.
  match type of E with
  | context [after (config_hostapd gen) {| trace := ?T; files := ?F |}] =>
      replace T with t2 in E by (subst t2; rewrite <- !app_assoc; reflexivity);
      set (fs := F) in E
  end.
  clearbody t2.
  destruct (config_hostapd_world gen {| trace := t2; files := fs |}) as [Hr Ha].
  cbn [trace files] in Hr, Ha. fold u in Hr, Ha. rewrite Hr, Ha in E. clear Hr Ha.
  unfold emit in E. cbn [trace files] in E.
  match type of E with
  | context [after (enable_services exec) {| trace := ?T; files := ?F |}] =>
      replace T with t3 in E by (subst t3; rewrite <- app_assoc; reflexivity);
      set (fs' := F) in E
  end.
  clearbody t3.
  (* the services *)
  rewrite after_enable_services_at in E. cbn [trace files] in E. fold t4 in E.
  clearbody t4.
  pose proof (restart_services_at exec {| trace := t4; files := fs' |}) as R.
  cbv zeta in R. cbn [trace files] in R.
  fold p1 in R. fold t5 in R. fold p2 in R. fold t6 in R. fold p3 in R. fold t7 in R.
  fold r in R.
  unfold result, after in E. rewrite R in E. cbn [fst snd] in E. clear R.
  rewrite E, emits_world. cbn [trace files]. reflexivity.
Qed.

Lemma file_events_runs evs : forallb is_run evs = true -> List.filter is_file_event evs = [].
Proof.
  induction evs as [|e evs IH]; [reflexivity|]. cbn [forallb].
  intros H. apply andb_prop in H as [He H]. destruct e; try discriminate He.
  exact (IH H).
Qed.

Lemma install_run_runs exec t evs : install_run exec t evs -> forallb is_run evs = true.
Proof.
  intros (seg1 & o1 & H1 & H). destruct o1 as [out|].
  - subst evs. inversion H1; reflexivity.
  - destruct H as (seg2 & o2 & H2 & ->). rewrite forallb_app.
    inversion H1; inversion H2; reflexivity.
Qed.

Lemma file_events_final_logs r cred : List.filter is_file_event (final_logs r cred) = [].
Proof. destruct r; reflexivity. Qed.


(** X7: the whole history of a run of [start_ap] that returns a code:
    first log line and [systemctl daemon-reload]; the package segments of
    [install_reqs]; the three files, written dhcpcd, dnsmasq, hostapd; the
    four unmask/enable commands; the three restarts with their debug
    lines; the closing log lines.  Every recorded answer is the one the
    command gives when asked with the history up to it, the UUID is the
    generator's, and the code is 0 exactly when the three restarts exit
    with 0. *)
Theorem start_ap_history exec gen w code :
  result (start_ap exec gen) w = code →
  let t0 := trace w ++ [ELog "Setting up dependencies..."] in
  let t1 := t0 ++ [run_event exec t0 ["systemctl"; "daemon-reload"] StderrToStdoutPipe] in
  ∃ install, install_run exec t1 install ∧
    let t2 := t1 ++ install ++
                [ELog "Configuring system...";
                 EOpen dhcpcd_path; EWrite dhcpcd_path dhcpcd_baseline;
                 EWrite dhcpcd_path dhcpcd_static_block;
                 EOpen dnsmasq_path; EWrite dnsmasq_path dnsmasq_conf] in
    let u := gen t2 in
    let t3 := t2 ++ [EUuid1 u; EOpen hostapd_path;
                     EWrite hostapd_path
                       (hostapd_conf (fst (credentials_of u)) (snd (credentials_of u)));
                     ELog "Starting services..."] in
    let t4 := t3 ++ run_seq exec t3
                [ ["systemctl"; "unmask"; "dnsmasq"]; ["systemctl"; "enable"; "dnsmasq"];
                  ["systemctl"; "unmask"; "hostapd"]; ["systemctl"; "enable"; "hostapd"] ]
                CaptureOutput in
    let p1 := exec t4 ["systemctl"; "restart"; "dhcpcd"] StderrToStdoutPipe in
    let t5 := t4 ++ [restart_event "dhcpcd" p1; restart_debug "dhcpcd" p1] in
    let p2 := exec t5 ["systemctl"; "restart"; "dnsmasq"] StderrToStdoutPipe in
    let t6 := t5 ++ [restart_event "dnsmasq" p2; restart_debug "dnsmasq" p2] in
    let p3 := exec t6 ["systemctl"; "restart"; "hostapd"] StderrToStdoutPipe in
    let t7 := t6 ++ [restart_event "hostapd" p3; restart_debug "hostapd" p3] in
    let r := forallb (λ c, (c =? 0)%Z) [returncode p1; returncode p2; returncode p3] in
    code = (if r then 0 else 1)%Z ∧
    trace (after (start_ap exec gen) w) = t7 ++ final_logs r (credentials_of u).
Proof.
  intros Hc t0 t1.
  destruct (start_ap_run_at exec gen w) as (install & Hi & E).
  exists install. split; [exact Hi|].
  intros t2 u t3 t4 p1 t5 p2 t6 p3 t7 r.
  unfold result in Hc. unfold after. rewrite E in *. cbn [fst snd] in *.
  split; [symmetry; exact Hc | reflexivity].
Qed.

(** A run in which only the restart of hostapd fails returns 1. *)
Lemma start_ap_history_witness :
  result (start_ap exec_hostapd_down gen_sample) empty_world = 1%Z ∧
  ∃ install,
    install_run exec_hostapd_down
      [ELog "Setting up dependencies...";
       ERun ["systemctl"; "daemon-reload"] StderrToStdoutPipe
         {| returncode := 0; stdout := "" |}] install.
Proof.
  assert (H : result (start_ap exec_hostapd_down gen_sample) empty_world = 1%Z)
    by (vm_compute; reflexivity).
  split; [exact H|].
  destruct (start_ap_history exec_hostapd_down gen_sample empty_world 1%Z H)
    as (install & Hi & _).
  exists install. exact Hi.
Defined.

(** X6: a run of [start_ap] that returns a code (0 or 1, so also after a
    failed restart) has left the three configuration files written in
    full: dhcpcd with the static block, dnsmasq, and hostapd with the
    credentials of the UUID the generator gave at the point [t] of this
    run; and these are the only files the module opened or wrote, in this
    order. *)
Theorem start_ap_files exec gen w code :
  result (start_ap exec gen) w = code →
  (code = 0 ∨ code = 1)%Z ∧
  ∃ t : list Event,
    (trace w ++ [ELog "Setting up dependencies..."]) `prefix_of` t ∧
    (t ++ [EUuid1 (gen t)]) `prefix_of` trace (after (start_ap exec gen) w) ∧
    files (after (start_ap exec gen) w) !! dhcpcd_path
      = Some (dhcpcd_baseline +:+ dhcpcd_static_block) ∧
    files (after (start_ap exec gen) w) !! dnsmasq_path = Some dnsmasq_conf ∧
    files (after (start_ap exec gen) w) !! hostapd_path
      = Some (hostapd_conf ("spiro-" +:+ PyStr.slice 30 36 (Uuid.str (gen t)))
                           (PyStr.slice 0 8 (Uuid.str (gen t)))) ∧
    List.filter is_file_event (new_events (start_ap exec gen) w) =
      [ EOpen dhcpcd_path; EWrite dhcpcd_path dhcpcd_baseline;
        EWrite dhcpcd_path dhcpcd_static_block;
        EOpen dnsmasq_path; EWrite dnsmasq_path dnsmasq_conf;
        EOpen hostapd_path;
        EWrite hostapd_path
          (hostapd_conf ("spiro-" +:+ PyStr.slice 30 36 (Uuid.str (gen t)))
                        (PyStr.slice 0 8 (Uuid.str (gen t)))) ].
Proof.
  intros Hc.
  pose proof (start_ap_run_at exec gen w) as H. cbv zeta in H.
  destruct H as (install & Hi & E).
  match type of E with context [gen ?T] => set (t2 := T) in * end.
  apply install_run_runs in Hi.
  assert (HP : ∃ P, t2 = trace w ++ ELog "Setting up dependencies..." :: P ∧
                    List.filter is_file_event P =
                      [ EOpen dhcpcd_path; EWrite dhcpcd_path dhcpcd_baseline;
                        EWrite dhcpcd_path dhcpcd_static_block;
                        EOpen dnsmasq_path; EWrite dnsmasq_path dnsmasq_conf ]).
  { unfold t2. eexists. split; [rewrite <- !app_assoc; reflexivity|].
    cbn [app List.filter is_file_event run_event].
    rewrite !List.filter_app, (file_events_runs install Hi). reflexivity. }
  clearbody t2.
  assert (HK : ∃ K, trace (after (start_ap exec gen) w) = t2 ++ EUuid1 (gen t2) :: K ∧
                    List.filter is_file_event K =
                      [ EOpen hostapd_path;
                        EWrite hostapd_path
                          (hostapd_conf ("spiro-" +:+ PyStr.slice 30 36 (Uuid.str (gen t2)))
                                        (PyStr.slice 0 8 (Uuid.str (gen t2)))) ]).
  { unfold after. rewrite E. cbn [snd trace]. eexists.
    split; [rewrite <- !app_assoc; cbn [app]; reflexivity|].
    cbn [List.filter is_file_event].
    rewrite !List.filter_app.
    cbn [List.filter is_file_event restart_event restart_debug].
    rewrite file_events_final_logs. reflexivity. }
  destruct HP as (P & HtP & FP). destruct HK as (K & HtK & FK).
  split.
  - unfold result in Hc. rewrite E in Hc. cbn [fst] in Hc. subst code.
    destruct (forallb (λ c : Z, (c =? 0)%Z) _); auto.
  - exists t2.
    split; [exists P; rewrite HtP, <- app_assoc; reflexivity|].
    split; [exists K; rewrite HtK, <- app_assoc; reflexivity|].
    split; [unfold after; rewrite E; cbn [snd files]; unfold configured_files;
            rewrite !lookup_insert_ne by discriminate; apply lookup_insert_eq|].
    split; [unfold after; rewrite E; cbn [snd files]; unfold configured_files;
            rewrite lookup_insert_ne by discriminate; apply lookup_insert_eq|].
    split; [unfold after; rewrite E; cbn [snd files]; apply lookup_insert_eq|].
    rewrite (new_events_eq _ _ ((ELog "Setting up dependencies..." :: P)
                                  ++ EUuid1 (gen t2) :: K)).
    + rewrite List.filter_app. cbn [List.filter is_file_event]. rewrite FP, FK.
      reflexivity.
    + rewrite HtK, app_assoc. f_equal. exact HtP.
Qed.

(** A run in which no package can be installed, and which gets through,
    returns 0 with the files written. *)
Lemma start_ap_files_witness :
  result (start_ap exec_no_packages gen_sample) empty_world = 0%Z ∧
  files (after (start_ap exec_no_packages gen_sample) empty_world) !! dhcpcd_path
    = Some (dhcpcd_baseline +:+ dhcpcd_static_block) ∧
  files (after (start_ap exec_no_packages gen_sample) empty_world) !! dnsmasq_path
    = Some dnsmasq_conf.
Proof.
  assert (H : result (start_ap exec_no_packages gen_sample) empty_world = 0%Z)
    by (vm_compute; reflexivity).
  split; [exact H|].
  destruct (start_ap_files exec_no_packages gen_sample empty_world 0%Z H)
    as (_ & t & _ & _ & Hd & Hn & _).
  split; [exact Hd | exact Hn].
Defined.

Lemma install_history_commands evs :
  install_history evs ->
  commands evs ∈
    [ [["dpkg"; "-l"; "dnsmasq"]; ["apt"; "install"; "-y"; "dnsmasq"]];
      [["dpkg"; "-l"; "dnsmasq"]; ["dpkg"; "-l"; "hostapd"]];
      [["dpkg"; "-l"; "dnsmasq"]; ["dpkg"; "-l"; "hostapd"];
       ["apt"; "install"; "-y"; "hostapd"]; ["systemctl"; "stop"; "hostapd"]];
      [["dpkg"; "-l"; "dnsmasq"]; ["dpkg"; "-l"; "hostapd"];
       ["apt"; "install"; "-y"; "hostapd"]];
      [["dpkg"; "-l"; "dnsmasq"]; ["apt"; "install"; "-y"; "dnsmasq"];
       ["systemctl"; "stop"; "dnsmasq"]; ["dpkg"; "-l"; "hostapd"]];
      [["dpkg"; "-l"; "dnsmasq"]; ["apt"; "install"; "-y"; "dnsmasq"];
       ["systemctl"; "stop"; "dnsmasq"]; ["dpkg"; "-l"; "hostapd"];
       ["apt"; "install"; "-y"; "hostapd"]; ["systemctl"; "stop"; "hostapd"]];
      [["dpkg"; "-l"; "dnsmasq"]; ["apt"; "install"; "-y"; "dnsmasq"];
       ["systemctl"; "stop"; "dnsmasq"]; ["dpkg"; "-l"; "hostapd"];
       ["apt"; "install"; "-y"; "hostapd"]] ].
Proof.
  intros (seg1 & o1 & H1 & H). destruct o1 as [out|].
  - subst evs. inversion H1; subst. cbn. set_solver.
  - destruct H as (seg2 & o2 & H2 & ->).
    inversion H1; subst; inversion H2; subst; cbn; set_solver.
Qed.

(** X8: no retries: in one run of [start_ap] no command line is run
    twice. *)
Theorem start_ap_no_command_twice exec gen w :
  NoDup (commands (new_events (start_ap exec gen) w)).
Proof.
  destruct (start_ap_run exec gen w)
    as (p0 & install & u & q1 & q2 & q3 & q4 & p1 & p2 & p3 & Hi & _ & E).
  erewrite new_events_eq by (unfold after; rewrite E; reflexivity).
  rewrite !commands_app, commands_final_logs. clear E.
  pose proof (install_history_commands install Hi) as Hc.
  repeat (apply elem_of_cons in Hc as [-> | Hc]);
    [.. | now apply elem_of_nil in Hc];
    cbn; apply (bool_decide_unpack _); vm_compute; reflexivity.
Qed.

Lemma start_ap_log_lines exec gen w :
  ∃ u p1 p2 p3,
    let r := forallb (λ c, (c =? 0)%Z) [returncode p1; returncode p2; returncode p3] in
    result (start_ap exec gen) w = (if r then 0 else 1)%Z ∧
    files (after (start_ap exec gen) w) !! hostapd_path
      = Some (hostapd_conf (fst (credentials_of u)) (snd (credentials_of u))) ∧
    log_lines (new_events (start_ap exec gen) w) =
      ["Setting up dependencies..."; "Configuring system..."; "Starting services..."]
      ++ log_lines (final_logs r (credentials_of u)).
Proof.
  destruct (start_ap_run exec gen w)
    as (p0 & install & u & q1 & q2 & q3 & q4 & p1 & p2 & p3 & Hi & _ & E).
  exists u, p1, p2, p3. cbv zeta in *.
  split; [unfold result; now rewrite E|].
  split; [unfold after; rewrite E; apply lookup_insert_eq|].
  erewrite new_events_eq by (unfold after; rewrite E; reflexivity).
  rewrite !log_lines_app, (log_lines_runs install (install_history_runs _ Hi)).
  reflexivity.
Qed.

(** X9: when [start_ap] returns 0, its log lines are the three progress
    lines and the four closing lines, and the SSID and the password shown
    there are the ones on the [ssid] and [wpa_passphrase] lines of the
    file it wrote. *)
Theorem start_ap_success_shows_written_credentials exec gen w :
  result (start_ap exec gen) w = 0%Z →
  ∃ ssid pwd : string,
    files (after (start_ap exec gen) w) !! hostapd_path = Some (hostapd_conf ssid pwd) ∧
    log_lines (new_events (start_ap exec gen) w) =
      [ "Setting up dependencies..."; "Configuring system..."; "Starting services...";
        "Access point configured and enabled. Below are the details for connecting to it:";
        String PyStr.nl "SSID:     " +:+ ssid;
        "Password: " +:+ pwd;
        String PyStr.nl "Connect to the web interface using the address http://spiro.local" ].
Proof.
  intros H0. destruct (start_ap_log_lines exec gen w) as (u & p1 & p2 & p3 & H).
  cbv zeta in H. destruct H as (Hr & Hf & Hl).
  destruct (forallb _ _); [|rewrite Hr in H0; discriminate H0].
  exists (fst (credentials_of u)), (snd (credentials_of u)). split; [exact Hf|exact Hl].
Qed.

Lemma start_ap_success_shows_written_credentials_witness :
  result (start_ap exec_ok gen_sample) empty_world = 0%Z ∧
  ∃ ssid pwd : string,
    files (after (start_ap exec_ok gen_sample) empty_world) !! hostapd_path
      = Some (hostapd_conf ssid pwd) ∧
    log_lines (new_events (start_ap exec_ok gen_sample) empty_world) =
      [ "Setting up dependencies..."; "Configuring system..."; "Starting services...";
        "Access point configured and enabled. Below are the details for connecting to it:";
        String PyStr.nl "SSID:     " +:+ ssid;
        "Password: " +:+ pwd;
        String PyStr.nl "Connect to the web interface using the address http://spiro.local" ].
Proof.
  split; [vm_compute; reflexivity|].
  apply (start_ap_success_shows_written_credentials exec_ok gen_sample empty_world).
  vm_compute. reflexivity.
Defined.

(** X10: when [start_ap] does not return 0 it returns 1 and logs the
    three progress lines and the two failure lines, nothing else: the
    credentials are not shown, although they were written to the
    file. *)
Theorem start_ap_failure_logs_no_credentials exec gen w :
  result (start_ap exec gen) w ≠ 0%Z →
  result (start_ap exec gen) w = 1%Z ∧
  log_lines (new_events (start_ap exec gen) w) =
    [ "Setting up dependencies..."; "Configuring system..."; "Starting services...";
      "Failed to restart services."; "Setting up access point failed." ] ∧
  ∃ ssid pwd : string,
    files (after (start_ap exec gen) w) !! hostapd_path = Some (hostapd_conf ssid pwd).
Proof.
  intros H0. destruct (start_ap_log_lines exec gen w) as (u & p1 & p2 & p3 & H).
  cbv zeta in H. destruct H as (Hr & Hf & Hl).
  destruct (forallb _ _); [rewrite Hr in H0; contradiction|].
  split; [exact Hr|]. split; [exact Hl|]. eauto.
Qed.

Lemma start_ap_failure_logs_no_credentials_witness :
  result (start_ap exec_hostapd_down gen_sample) empty_world ≠ 0%Z ∧
  result (start_ap exec_hostapd_down gen_sample) empty_world = 1%Z ∧
  log_lines (new_events (start_ap exec_hostapd_down gen_sample) empty_world) =
    [ "Setting up dependencies..."; "Configuring system..."; "Starting services...";
      "Failed to restart services."; "Setting up access point failed." ] ∧
  ∃ ssid pwd : string,
    files (after (start_ap exec_hostapd_down gen_sample) empty_world) !! hostapd_path
      = Some (hostapd_conf ssid pwd).
Proof.
  assert (H : result (start_ap exec_hostapd_down gen_sample) empty_world ≠ 0%Z)
    by (vm_compute; discriminate).
  split; [exact H|].
  exact (start_ap_failure_logs_no_credentials exec_hostapd_down gen_sample empty_world H).
Defined.

(** X11: [stop_ap] after [start_ap] does not undo the configuration:
    the three files are as [start_ap] left them, in particular
    [/etc/dhcpcd.conf] still pins the static address of wlan0. *)
Theorem stop_ap_keeps_configuration exec exec' gen w :
  ∃ u : Uuid.UUID,
    files (after (stop_ap exec') (after (start_ap exec gen) w)) =
      files (after (start_ap exec gen) w) ∧
    files (after (stop_ap exec') (after (start_ap exec gen) w)) !! dhcpcd_path
      = Some (dhcpcd_baseline +:+ dhcpcd_static_block) ∧
    files (after (stop_ap exec') (after (start_ap exec gen) w)) !! dnsmasq_path
      = Some dnsmasq_conf ∧
    files (after (stop_ap exec') (after (start_ap exec gen) w)) !! hostapd_path
      = Some (hostapd_conf ("spiro-" +:+ PyStr.slice 30 36 (Uuid.str u))
                           (PyStr.slice 0 8 (Uuid.str u))).
Proof.
  assert (F : ∀ w', files (after (stop_ap exec') w') = files w').
  { intros w'. pose proof (stop_ap_run exec' w') as E. cbv zeta in E.
    unfold after. rewrite E. reflexivity. }
  destruct (start_ap_run exec gen w)
    as (p0 & install & u & q1 & q2 & q3 & q4 & p1 & p2 & p3 & Hi & _ & E).
  exists u. rewrite F. split; [reflexivity|].
  unfold after. rewrite E. cbn [snd files]. unfold configured_files.
  split; [rewrite !lookup_insert_ne by discriminate; apply lookup_insert_eq|].
  split; [rewrite lookup_insert_ne by discriminate; apply lookup_insert_eq|].
  apply lookup_insert_eq.
Qed.






(** ** Hexadecimal numerals, digit by digit *)

Module HexFacts.
Import PyStr PyStrFacts.
#[local] Arguments String.append !_ _ : simpl nomatch.

Lemma string_app_nil_r (s : string) : s +:+ "" = s.
Proof. induction s as [|c s IH]; simpl; [reflexivity | now rewrite IH]. Qed.

Lemma replicate_char_snoc n c :
  replicate_char n c +:+ String c "" = replicate_char (S n) c.
Proof. induction n as [|n IH]; simpl; [reflexivity | now rewrite IH]. Qed.

Lemma take_app_length (s t : string) : take (String.length s) (s +:+ t) = s.
Proof. induction s as [|c s IH]; simpl; [now destruct t | now rewrite IH]. Qed.

Lemma drop_app_length (s t : string) : drop (String.length s) (s +:+ t) = t.
Proof. induction s as [|c s IH]; simpl; [reflexivity | exact IH]. Qed.

(** With enough fuel the digits do not depend on the fuel. *)
Lemma hex_aux_fuel f : forall f' n acc,
  (n < 16 ^ N.of_nat (S f))%N -> (n < 16 ^ N.of_nat (S f'))%N ->
  hex_of_N_aux (S f) n acc = hex_of_N_aux (S f') n acc.
Proof.
  assert (Hdiv : forall k m, (m < 16 ^ N.of_nat (S k))%N -> (m / 16 < 16 ^ N.of_nat k)%N).
  { intros k m Hm. apply N.Div0.div_lt_upper_bound.
    replace (N.of_nat (S k)) with (N.succ (N.of_nat k)) in Hm by lia.
    now rewrite N.pow_succ_r' in Hm. }
  induction f as [|f IH]; intros f' n acc H H'.
  - cbn [hex_of_N_aux]. cbv zeta.
    rewrite (N.div_small n 16) by exact H. reflexivity.
  - cbn [hex_of_N_aux]. cbv zeta.
    destruct (N.eqb_spec (n / 16) 0) as [Hq|Hq]; [reflexivity|].
    destruct f' as [|f'].
    + exfalso. apply Hq. apply N.div_small. exact H'.
    + fold hex_of_N_aux. apply (IH f' (n / 16)%N); now apply Hdiv.
Qed.

Lemma enough_fuel n : (n < 16 ^ N.of_nat (S (N.to_nat (N.log2 n))))%N.
Proof.
  destruct n as [|p]; [reflexivity|].
  set (m := N.pos p).
  assert (Hlog : (m < 2 ^ N.succ (N.log2 m))%N) by (apply N.log2_spec; lia).
  replace (N.of_nat (S (N.to_nat (N.log2 m)))) with (N.succ (N.log2 m)) by lia.
  eapply N.lt_le_trans; [exact Hlog|].
  apply N.pow_le_mono_l. lia.
Qed.

Lemma hex_of_N_small n : (n / 16 = 0)%N -> hex_of_N n = String (hex_digit (n mod 16)%N) "".
Proof.
  intros H. unfold hex_of_N. cbn [hex_of_N_aux]. cbv zeta. now rewrite H.
Qed.

Lemma hex_of_N_step n :
  (n / 16 <> 0)%N ->
  hex_of_N n = hex_of_N (n / 16)%N +:+ String (hex_digit (n mod 16)%N) "".
Proof.
  intros H. unfold hex_of_N at 1. cbn [hex_of_N_aux]. cbv zeta.
  destruct (N.eqb_spec (n / 16) 0) as [Hq|_]; [contradiction|].
  rewrite hex_aux_acc. f_equal. unfold hex_of_N.
  pose proof (enough_fuel n) as E.
  destruct (N.to_nat (N.log2 n)) as [|L] eqn:EL.
  - exfalso. apply H. apply N.div_small. exact E.
  - apply hex_aux_fuel; [|apply enough_fuel].
    apply N.Div0.div_lt_upper_bound.
    replace (N.of_nat (S (S L))) with (N.succ (N.of_nat (S L))) in E by lia.
    now rewrite N.pow_succ_r' in E.
Qed.

Lemma hex_of_N_0 : hex_of_N 0 = "0".
Proof. reflexivity. Qed.

(** The last digit of a padded numeral is the number modulo 16, the rest
    is the quotient, padded to one digit less. *)
Lemma hex_padded_snoc k n :
  hex_padded (S (S k)) n =
    hex_padded (S k) (n / 16)%N +:+ String (hex_digit (n mod 16)%N) "".
Proof.
  unfold hex_padded. cbv zeta. destruct (N.eq_dec (n / 16)%N 0%N) as [Hq|Hq].
  - rewrite (hex_of_N_small n Hq), Hq, hex_of_N_0.
    cbn [String.length]. replace (S (S k) - 1) with (S k) by lia.
    replace (S k - 1) with k by lia.
    rewrite string_app_assoc. change ("0" +:+ String (hex_digit (n mod 16)) "")
      with (String "0"%char "" +:+ String (hex_digit (n mod 16)) "").
    rewrite <- string_app_assoc, replicate_char_snoc. reflexivity.
  - rewrite (hex_of_N_step n Hq), string_length_app. cbn [String.length].
    rewrite string_app_assoc.
    replace (S (S k) - (String.length (hex_of_N (n / 16)) + 1))
      with (S k - String.length (hex_of_N (n / 16))) by lia.
    reflexivity.
Qed.

Lemma hex_padded_one n : (n < 16)%N -> hex_padded 1 n = String (hex_digit n) "".
Proof.
  intros H. unfold hex_padded. cbv zeta.
  rewrite hex_of_N_small by (now apply N.div_small).
  rewrite N.mod_small by exact H. reflexivity.
Qed.

(** A padded numeral splits into the numerals of the quotient and of the
    remainder by a power of 16. *)
Lemma hex_padded_split a b : forall n,
  hex_padded (S a + S b) n =
    hex_padded (S a) (n / 16 ^ N.of_nat (S b))%N
    +:+ hex_padded (S b) (n mod 16 ^ N.of_nat (S b))%N.
Proof.
  induction b as [|b IH]; intros n.
  - replace (S a + 1) with (S (S a)) by lia. rewrite hex_padded_snoc.
    change (16 ^ N.of_nat 1)%N with 16%N.
    rewrite hex_padded_one by (apply N.mod_upper_bound; lia). reflexivity.
  - replace (S a + S (S b)) with (S (S (a + S b))) by lia.
    rewrite hex_padded_snoc. change (S (a + S b)) with (S a + S b).
    rewrite IH, (hex_padded_snoc b), string_app_assoc.
    replace (N.of_nat (S (S b))) with (N.succ (N.of_nat (S b))) by lia.
    rewrite N.pow_succ_r'.
    set (P := (16 ^ N.of_nat (S b))%N).
    assert (HP : (0 < P)%N) by (subst P; apply N.neq_0_lt_0, N.pow_nonzero; lia).
    rewrite N.Div0.div_div.
    replace ((n mod (16 * P)) / 16)%N with ((n / 16) mod P)%N.
    2:{ rewrite N.Div0.mod_mul_r. rewrite (N.mul_comm 16 ((n / 16) mod P)).
        rewrite N.div_add by lia. rewrite (N.div_small (n mod 16)) by (apply N.mod_upper_bound; lia).
        lia. }
    replace ((n mod (16 * P)) mod 16)%N with (n mod 16)%N.
    2:{ rewrite N.Div0.mod_mul_r. rewrite (N.mul_comm 16 ((n / 16) mod P)).
        rewrite N.Div0.mod_add. now rewrite N.Div0.mod_mod. }
    reflexivity.
Qed.

(** Reading a padded numeral back gives the number: padding is harmless. *)
Lemma N_of_hex_aux_zeros k : forall s, N_of_hex_aux (replicate_char k "0"%char +:+ s) 0 = N_of_hex_aux s 0.
Proof. induction k as [|k IH]; intros s; simpl; [reflexivity | apply IH]. Qed.

Lemma N_of_hex_padded w n : N_of_hex (hex_padded w n) = n.
Proof.
  unfold N_of_hex, hex_padded. cbv zeta. rewrite N_of_hex_aux_zeros.
  apply N_of_hex_of_N.
Qed.

Lemma hex_padded_inj w n m : hex_padded w n = hex_padded w m -> n = m.
Proof.
  intros H. apply (f_equal N_of_hex) in H. now rewrite !N_of_hex_padded in H.
Qed.
End HexFacts.

(** ** The credentials as bits of the identifier *)

Lemma str_slices_of_hex (x : string) :
  String.length x = 32 ->
  let s := PyStr.slice_to 8 x +:+ "-" +:+ PyStr.slice 8 12 x +:+ "-" +:+
           PyStr.slice 12 16 x +:+ "-" +:+ PyStr.slice 16 20 x +:+ "-" +:+
           PyStr.slice_from 20 x in
  PyStr.slice 0 8 s = PyStr.take 8 x ∧ PyStr.slice 30 36 s = PyStr.drop 26 x.
Proof.
  intros H. do 32 PyStrFacts.next_char x. PyStrFacts.last_char x.
  split; reflexivity.
Qed.

Lemma credentials_of_bits (u : Uuid.UUID) :
  PyStr.slice 0 8 (Uuid.str u) = PyStr.hex_padded 8 (Uuid.int u / 2 ^ 96)%N ∧
  PyStr.slice 30 36 (Uuid.str u) = PyStr.hex_padded 6 (Uuid.int u mod 2 ^ 24)%N.
Proof.
  destruct (str_slices_of_hex (Uuid.hex u) (PyStrFacts.uuid_hex_length u)) as [Hp Hs].
  unfold Uuid.str. cbv zeta. rewrite Hp, Hs. unfold Uuid.hex.
  pose proof (Uuid.int_range u) as R. apply N.ltb_lt in R.
  set (n := Uuid.int u) in *.
  split.
  - change 32 with (8 + 24) at 1. rewrite (HexFacts.hex_padded_split 7 23 n).
    change (16 ^ N.of_nat 24)%N with (2 ^ 96)%N.
    rewrite <- (PyStrFacts.hex_padded_length 7 (n / 2 ^ 96)%N) at 1.
    + apply HexFacts.take_app_length.
    + apply N.Div0.div_lt_upper_bound.
      change (2 ^ 96 * 16 ^ N.of_nat 8)%N with (2 ^ 128)%N. exact R.
  - change 32 with (26 + 6) at 1. rewrite (HexFacts.hex_padded_split 25 5 n).
    change (16 ^ N.of_nat 6)%N with (2 ^ 24)%N.
    rewrite <- (PyStrFacts.hex_padded_length 25 (n / 2 ^ 24)%N) at 1.
    + apply HexFacts.drop_app_length.
    + apply N.Div0.div_lt_upper_bound.
      change (2 ^ 24 * 16 ^ N.of_nat 26)%N with (2 ^ 128)%N. exact R.
Qed.

(** X4: which bits of the identifier become the credentials: the
    passphrase is the 32 most significant bits of the 128-bit UUID, as 8
    hexadecimal digits, and the SSID is ["spiro-"] followed by its 24
    least significant bits, as 6 hexadecimal digits. *)
Theorem config_hostapd_credential_bits gen w :
  result (config_hostapd gen) w =
    ("spiro-" +:+ PyStr.hex_padded 6 (Uuid.int (gen (trace w)) mod 2 ^ 24)%N,
     PyStr.hex_padded 8 (Uuid.int (gen (trace w)) / 2 ^ 96)%N).
Proof.
  pose proof (config_hostapd_run gen w) as E. cbv zeta in E.
  destruct (credentials_of_bits (gen (trace w))) as [Hp Hs].
  unfold result. rewrite E. cbn [fst]. now rewrite Hp, Hs.
Qed.

(** X5: two runs get the same passphrase exactly when their UUIDs agree
    on the 32 most significant bits, and the same SSID exactly when they
    agree on the 24 least significant bits. *)
Theorem credentials_collide_iff gen gen' w w' :
  let u := Uuid.int (gen (trace w)) in
  let u' := Uuid.int (gen' (trace w')) in
  (snd (result (config_hostapd gen) w) = snd (result (config_hostapd gen') w')
     ↔ (u / 2 ^ 96 = u' / 2 ^ 96)%N) ∧
  (fst (result (config_hostapd gen) w) = fst (result (config_hostapd gen') w')
     ↔ (u mod 2 ^ 24 = u' mod 2 ^ 24)%N).
Proof.
  intros u u'.
  pose proof (config_hostapd_run gen w) as E. cbv zeta in E.
  pose proof (config_hostapd_run gen' w') as E'. cbv zeta in E'.
  destruct (credentials_of_bits (gen (trace w))) as [Hp Hs].
  destruct (credentials_of_bits (gen' (trace w'))) as [Hp' Hs'].
  unfold result. rewrite E, E'. cbn [fst snd]. rewrite Hp, Hs, Hp', Hs'. fold u u'.
  split; split.
  - apply HexFacts.hex_padded_inj.
  - now intros ->.
  - intros H. apply (f_equal (PyStr.drop 6)) in H. cbn [PyStr.drop] in H.
    revert H. apply HexFacts.hex_padded_inj.
  - now intros ->.
Qed.
